(** * passport-openam: the OpenAM authentication strategy

    A shallow embedding of the strategy module of passport-openam, the file
    that defines and exports [OpenAmStrategy], with its constructor and its
    methods [authenticate], [_loadUserProfile] and [userProfile], and the
    properties of the authentication handshake. Line numbers are those of
    that file.

    JavaScript values are an inductive type with the language's notion of
    truthiness; the cookie dictionary is a finite map; the calls to
    collaborators (the OpenAM client, the application's [verify] function)
    and the outcome channels inherited from [passport.Strategy] are
    recorded, in order, in a trace. Callbacks are run where they are handed
    over, so the trace is the order in which one request's handshake
    proceeds. *)

From Stdlib Require Import ZArith Ascii String.
From stdpp Require Import base option list strings gmap.

Open Scope string_scope.
Open Scope list_scope.

#[local] Set Warnings "-register-all".

(** ** JavaScript values *)

(** The two native error kinds the strategy can run into. *)
Inductive native_error := TypeError | ReferenceError.

Inductive value :=
| VUndefined
| VNull
| VBool (b : bool)
| VNum (n : Z)
| VStr (s : string)
| VObj (props : list (string * value))      (* a plain object, own properties *)
| VBuiltin (name : string)                  (* a member of Object.prototype, or the prototype itself *)
| VNativeError (k : native_error)           (* an Error object raised by the runtime *)
| VError (message : string)                 (* new Error(message) *)
| VInternalOpenAmError (message : string) (cause : value).

(** Modelled from the spec: [./errors/internalopenamerror] is not part of the
    sources at hand; [VInternalOpenAmError message cause] stands for
    [new InternalOpenAmError(message, cause)], the provider-specific error
    kind that carries the underlying cause. *)
Definition InternalOpenAmError (message : string) (err : value) : value :=
  VInternalOpenAmError message err.

(** ToBoolean. *)
Definition truthy (v : value) : bool :=
  match v with
  | VUndefined | VNull => false
  | VBool b => b
  | VNum n => negb (Z.eqb n 0)
  | VStr s => negb (String.eqb s "")
  | VObj _ | VBuiltin _ | VNativeError _ | VError _ | VInternalOpenAmError _ _ => true
  end.

(** ** String primitives used on the cookie header

    Header strings are sequences of one-byte characters, which is how the
    HTTP layer hands them over. *)

(** [String.prototype.split] with a one-character separator: never empty,
    and the empty string splits into one empty piece. *)
Fixpoint split (sep : Ascii.ascii) (s : string) : list string :=
  match s with
  | EmptyString => [EmptyString]
  | String c s' =>
      if Ascii.eqb c sep then EmptyString :: split sep s'
      else match split sep s' with
           | [] => [String c EmptyString]
           | p :: ps => String c p :: ps
           end
  end.

(** White space of [String.prototype.trim] among one-byte characters: TAB, LF,
    VT, FF, CR, SP and NBSP. *)
Definition js_space (c : Ascii.ascii) : bool :=
  match Ascii.nat_of_ascii c with
  | 9 | 10 | 11 | 12 | 13 | 32 | 160 => true
  | _ => false
  end.

Fixpoint trim_left (s : string) : string :=
  match s with
  | EmptyString => EmptyString
  | String c s' => if js_space c then trim_left s' else s
  end.

Fixpoint trim_right (s : string) : string :=
  match s with
  | EmptyString => EmptyString
  | String c s' =>
      match trim_right s' with
      | EmptyString => if js_space c then EmptyString else String c EmptyString
      | r => String c r
      end
  end.

Definition trim (s : string) : string := trim_right (trim_left s).

(** ** Requests, outcomes and the trace of effects *)

Record request := {
  query : value;                    (* req.query: an object, or undefined *)
  headers_cookie : option string    (* req.headers.cookie; None when absent *)
}.

(** The four channels of [passport.Strategy]. *)
Inductive outcome :=
| Redirect (location : string)
| Success (user info : value)
| Fail (info : value)
| Error (cause : value).

Inductive event :=
| SetGlobal (name : string) (v : string)                 (* write to an undeclared identifier *)
| CallIsTokenValid (token : value)                       (* this._openam.isTokenValid *)
| CallSkipUserProfile (args : list value)                (* this._skipUserProfile(...) *)
| CallGetAttributes (token : value)                      (* this._openam.getAttributes *)
| CallVerify (req : request) (token profile : value)     (* this._verify *)
| Signal (o : outcome).                                  (* redirect / success / fail / error *)

(** A computation leaves a trace and then either returns or ends by an
    exception nobody caught. *)
Definition M (A : Type) : Type := list event * (value + A).

#[export] Instance M_ret : MRet M := λ A a, ([], inr a).
#[export] Instance M_bind : MBind M := λ A B f m,
  match m with
  | (t, inl e) => (t, inl e)
  | (t, inr a) => let '(t', r) := f a in (t ++ t', r)
  end.

Definition emit (ev : event) : M unit := ([ev], inr tt).
Definition throw {A} (e : value) : M A := ([], inl e).

(** [try { m } catch (e) { h e }]. *)
Definition try_catch {A} (m : M A) (h : value → M A) : M A :=
  match m with
  | (t, inl e) => let '(t', r) := h e in (t ++ t', r)
  | (t, inr a) => (t, inr a)
  end.

Definition trace_of {A} (m : M A) : list event := m.1.
Definition thrown {A} (m : M A) : option value :=
  match m.2 with inl e => Some e | inr _ => None end.

(** The outcomes signalled along a trace, in order. *)
Definition signals (t : list event) : list outcome :=
  omap (λ ev, match ev with Signal o => Some o | _ => None end) t.

Definition signal (o : outcome) : M unit := emit (Signal o).

(** [l.forEach(f)]: the calls in order; an uncaught exception ends it. *)
Fixpoint for_each {A} (f : A → M unit) (l : list A) : M unit :=
  match l with
  | [] => mret tt
  | x :: l' => f x;; for_each f l'
  end.

(** ** Property access *)

(** The first binding of [k] among the own properties. *)
Fixpoint assoc (k : string) (ps : list (string * value)) : option value :=
  match ps with
  | [] => None
  | (k', v) :: ps' => if String.eqb k k' then Some v else assoc k ps'
  end.

(** [v.k] for a value that is neither [undefined] nor [null], and a name [k]
    that no prototype defines ([error], [code], [tokenid], [uid], ...): the
    own property, else [undefined]. *)
Definition get_own (v : value) (k : string) : value :=
  match v with
  | VObj ps => default VUndefined (assoc k ps)
  | _ => VUndefined
  end.

(** [v.k] in general: reading a property of [undefined] or [null] raises a
    [TypeError]. *)
Definition get_prop (v : value) (k : string) : M value :=
  match v with
  | VUndefined | VNull => throw (VNativeError TypeError)
  | _ => mret (get_own v k)
  end.

(** ** The cookie dictionary of [authenticate]

    [var cookies = {}] is an ordinary object: its own properties are the
    cookies stored so far, and a lookup that finds no own property falls
    through to [Object.prototype]. *)

Definition object_prototype_keys : list string :=
  [ "constructor"; "hasOwnProperty"; "isPrototypeOf"; "propertyIsEnumerable";
    "toLocaleString"; "toString"; "valueOf"; "__defineGetter__";
    "__defineSetter__"; "__lookupGetter__"; "__lookupSetter__"; "__proto__" ].

(** [cookies[k] = v] for a string [v]; the [__proto__] setter ignores a value
    that is not an object. *)
Definition cookie_set (cookies : gmap string string) (k v : string) : gmap string string :=
  if String.eqb k "__proto__" then cookies else <[k := v]> cookies.

(** [cookies[k]]. *)
Definition cookie_get (cookies : gmap string string) (k : string) : value :=
  match cookies !! k with
  | Some v => VStr v
  | None => if bool_decide (k ∈ object_prototype_keys) then VBuiltin k else VUndefined
  end.

(** The body of the [forEach] callback (lines 115-116):
    [parts[0].trim()] names the cookie, [(parts[1] || '').trim()] is its
    value. *)
Definition store_cookie (cookies : gmap string string) (cookie : string) : gmap string string :=
  let parts := split "="%char cookie in
  cookie_set cookies (trim (hd "" parts)) (trim (nth 1 parts "")).

(** [req.headers.cookie.split(';').forEach(...)] starting from [{}]. *)
Definition parse_cookies (header : string) : gmap string string :=
  foldl store_cookie ∅ (split ";"%char header).

(** ** Collaborators *)

(** What [this] is bound to when the OpenAM client runs the callback handed
    to [isTokenValid]. The callback is an ordinary [function] of a module
    without ["use strict"], so a plain call binds the global object. *)
Inductive receiver :=
| ThisStrategy      (* the client calls it on the strategy object itself *)
| ThisOther.        (* the global object, or any object without [_openam] *)

(** The [openam] client, [this._openam]. Each asynchronous method answers
    its callback once; the record gives the arguments of that answer. *)
Record openam_client := {
  getLoginUiUrl : gmap string string → string;
  isTokenValid : value → bool;
  callback_this : receiver;
  getAttributes : value → value * value        (* (err, data) *)
}.

(** One run of the application's [verify] function: the calls it makes to
    its continuation, as [(err, user, info)], and the exception it ends
    with, if any. *)
Record verify_run := {
  done_calls : list (value * value * value);
  raises : option value
}.

(** The [skipUserProfile] option. *)
Inductive skip_option :=
| SkipValue (v : value)                          (* not a function *)
| SkipSync (result : value)                      (* a function with [length <= 1]; what [f()] returns *)
| SkipAsync (f : value → list (value * value)).  (* [length > 1]; the [(err, skip)] it reports for a token *)

Record strategy := {
  name : string;
  _verify : request → value → value → verify_run;
  _openAmRealm : string;
  _openAmCookieName : string;
  _openam : openam_client;
  _callbackUrl : string;
  _skipUserProfile : skip_option;
  _openAmLoginPage : bool
}.

(** The module-level collaborators of [authenticate]: Node's [url], the
    package's [utils.originalURL], and the global scope. *)
Record env := {
  url_parse_protocol : string → option string;   (* url.parse(u).protocol, None for null *)
  url_resolve : string → string → string;        (* url.resolve(from, to) *)
  originalURL : request → string;                (* utils.originalURL(req) *)
  global_callbackURL : option string             (* the global variable [callbackURL], if one exists *)
}.

(** ** The constructor (lines 63-80) *)

Record strategy_options := {
  openAmBaseUrl : option string;
  callbackUrl : option string;
  openAmRealm : option string;
  openAmCookieName : option string;
  skipUserProfile : option skip_option;
  openAmLoginPage : option bool
}.

(** [!options.k] for an optional string. *)
Definition absent (o : option string) : bool :=
  match o with
  | None => true
  | Some s => String.eqb s ""
  end.

Definition OpenAmStrategy
    (OpenAm : string → string → string → openam_client)
    (options : strategy_options)
    (verify : request → value → value → verify_run) : value + strategy :=
  if absent (openAmBaseUrl options)
  then inl (VError "OpenAmStrategy requires a openAmBaseUrl option")
  else if absent (callbackUrl options)
  then inl (VError "OpenAmStrategy requires a callbackUrl option")
  else
    let realm := default "/" (openAmRealm options) in
    let cookieName := default "iPlanetDirectoryPro" (openAmCookieName options) in
    inr {| name := "openam";
           _verify := verify;
           _openAmRealm := realm;
           _openAmCookieName := cookieName;
           _openam := OpenAm (default "" (openAmBaseUrl options)) realm cookieName;
           _callbackUrl := default "" (callbackUrl options);
           _skipUserProfile := default (SkipValue (VBool false)) (skipUserProfile options);
           _openAmLoginPage := default true (openAmLoginPage options) |}.

(** ** Profile retrieval (lines 184-203) *)

(** The assignments of the [try] block, lines 188-197. *)
Definition build_profile (data : value) : M value :=
  id ← get_prop data "tokenid";
  username ← get_prop data "uid";
  displayName ← get_prop data "cn";
  familyName ← get_prop data "sn";
  givenName ← get_prop data "givenname";
  email ← get_prop data "mail";
  mret (VObj [ ("id", id);
               ("username", username);
               ("displayName", displayName);
               ("name", VObj [("familyName", familyName); ("givenName", givenName)]);
               ("email", email);
               ("_raw", data) ]).

(** [done] is called inside the [try] block, so whatever the continuation
    raises is caught as well and handed to [done] a second time. *)
Definition userProfile (self : strategy) (token : value)
    (done : value → value → M unit) : M unit :=
  emit (CallGetAttributes token);;
  let '(err, data) := getAttributes (_openam self) token in
  if truthy err
  then done (InternalOpenAmError "failed to get attributes" err) VUndefined
  else try_catch (profile ← build_profile data; done VNull profile)
                 (λ e, done e VUndefined).

(** ** Skipping the profile (lines 153-175) *)

Definition _loadUserProfile (self : strategy) (token : value)
    (done : value → value → M unit) : M unit :=
  let loadIt := userProfile self token done in
  let skipIt := done VNull VUndefined in
  match _skipUserProfile self with
  | SkipAsync f =>
      emit (CallSkipUserProfile [token]);;
      for_each (λ '(err, skip),
                  if truthy err then done err VUndefined
                  else if negb (truthy skip) then loadIt
                  else skipIt)
               (f token)
  | SkipSync result =>
      emit (CallSkipUserProfile []);;
      if negb (truthy result) then loadIt else skipIt
  | SkipValue v =>
      if negb (truthy v) then loadIt else skipIt
  end.

(** ** authenticate (lines 94-144) *)

(** The second argument; when it is missing, line 95 puts [{}] in its place,
    which is the record with no field set. *)
Record authenticate_options := {
  opt_callbackUrl : option string       (* options.callbackUrl *)
}.

(** [options.callbackUrl || this._callbackUrl]. *)
Definition string_or (a : option string) (b : string) : string :=
  match a with
  | Some s => if String.eqb s "" then b else s
  | None => b
  end.

(** Lines 131-134 and 139-142: the redirect to the login page. *)
Definition login_redirect (self : strategy) (callbackUrl : string) : M unit :=
  let params : gmap string string := {[ "goto" := callbackUrl +:+ "?code=true" ]} in
  let location := getLoginUiUrl (_openam self) params in
  signal (Redirect location).

(** The continuation handed to [verify], lines 124-128. *)
Definition verified (err user info : value) : M unit :=
  if truthy err then signal (Error err)
  else if negb (truthy user) then signal (Fail info)
  else signal (Success user info).

(** [self._verify(req, token, profile, verified)]. *)
Definition call_verify (self : strategy) (req : request) (token profile : value) : M unit :=
  emit (CallVerify req token profile);;
  let run := _verify self req token profile in
  for_each (λ '(err, user, info), verified err user info) (done_calls run);;
  match raises run with
  | Some e => throw e
  | None => mret tt
  end.

(** The callback handed to [_loadUserProfile], lines 122-129. *)
Definition profile_loaded (self : strategy) (req : request) (token : value)
    (err profile : value) : M unit :=
  if truthy err then signal (Error err)
  else call_verify self req token profile.

(** Lines 103-111. The assignment on line 109 targets [callbackURL], an
    identifier that is declared nowhere; its right-hand side reads that
    identifier too, after [utils.originalURL(req)] has returned. The local
    [callbackUrl] is never assigned again. *)
Definition qualify_callback (E : env) (req : request) (callbackUrl : string) : M unit :=
  if negb (String.eqb callbackUrl "") then
    if absent (url_parse_protocol E callbackUrl) then
      match global_callbackURL E with
      | None => throw (VNativeError ReferenceError)
      | Some g => emit (SetGlobal "callbackURL" (url_resolve E (originalURL E req) g))
      end
    else mret tt
  else mret tt.

(** [req.query && req.query.error] (line 97) and [req.query && req.query.code]
    (line 112), as conditions. *)
Definition has_error (req : request) : bool :=
  truthy (query req) && truthy (get_own (query req) "error").
Definition has_code (req : request) : bool :=
  truthy (query req) && truthy (get_own (query req) "code").

Definition authenticate (E : env) (self : strategy) (req : request)
    (options : authenticate_options) : M unit :=
  if has_error req
  then signal (Fail VUndefined)
  else
    let callbackUrl := string_or (opt_callbackUrl options) (_callbackUrl self) in
    qualify_callback E req callbackUrl;;
    if has_code req then
      match headers_cookie req with
      | None => throw (VNativeError TypeError)
      | Some header =>
          let cookies := parse_cookies header in
          if truthy (cookie_get cookies (_openAmCookieName self)) then
            let token := cookie_get cookies (_openAmCookieName self) in
            emit (CallIsTokenValid token);;
            if isTokenValid (_openam self) token
            then _loadUserProfile self token (profile_loaded self req token)
            else match callback_this (_openam self) with
                 | ThisStrategy => login_redirect self callbackUrl
                 | ThisOther => throw (VNativeError TypeError)
                 end
          else mret tt
      end
    else login_redirect self callbackUrl.

(** ** Observing a trace *)

(** The tokens [getAttributes] was called with. *)
Definition attribute_fetches (t : list event) : list value :=
  omap (λ ev, match ev with CallGetAttributes token => Some token | _ => None end) t.

(** The arguments [verify] was called with. *)
Definition verify_calls (t : list event) : list (request * value * value) :=
  omap (λ ev, match ev with CallVerify r token p => Some (r, token, p) | _ => None end) t.

(** Line 103: the callback URL of this request. *)
Definition effective_callback (self : strategy) (options : authenticate_options) : string :=
  string_or (opt_callbackUrl options) (_callbackUrl self).

(** Lines 104-106: the callback URL is there and [url.parse] finds no
    protocol in it. *)
Definition relative (E : env) (u : string) : bool :=
  negb (String.eqb u "") && absent (url_parse_protocol E u).

(** What the [skipUserProfile] option resolves to for a token: the boolean
    it yields, when the asynchronous form reports exactly once and without
    an error. *)
Definition skip_resolves (k : skip_option) (token : value) : option bool :=
  match k with
  | SkipValue v => Some (truthy v)
  | SkipSync result => Some (truthy result)
  | SkipAsync f =>
      match f token with
      | [(err, skip)] => if truthy err then None else Some (truthy skip)
      | _ => None
      end
  end.

(** The call to the option, when it is a function. *)
Definition skip_events (k : skip_option) (token : value) : list event :=
  match k with
  | SkipValue _ => []
  | SkipSync _ => [CallSkipUserProfile []]
  | SkipAsync _ => [CallSkipUserProfile [token]]
  end.

(** The application's [verify] raises nothing falsy ([throw null],
    [throw 0], ...). *)
Definition raises_truthy (run : verify_run) : bool :=
  match raises run with
  | Some e => truthy e
  | None => true
  end.

(** The channel the continuation of lines 124-128 picks. *)
Definition verdict (err user info : value) : outcome :=
  if truthy err then Error err
  else if negb (truthy user) then Fail info
  else Success user info.

(** An application that behaves: [verify] calls its continuation at most
    once and raises nothing, and an asynchronous skip function reports at
    most once. *)
Definition well_behaved (self : strategy) : Prop :=
  (∀ req token profile,
     (length (done_calls (_verify self req token profile)) ≤ 1)%nat
     ∧ raises (_verify self req token profile) = None)
  ∧ (∀ f token, _skipUserProfile self = SkipAsync f → (length (f token) ≤ 1)%nat).

(** ** A concrete deployment, for the examples

    The environment follows Node: [url.parse] finds a protocol when the
    string starts with characters of [[a-z0-9.+-]] followed by a colon;
    [utils.originalURL] is scheme, host and path of the request. What
    [url.resolve] returns is stored in a global and never read, so a plain
    concatenation stands for it. The client builds the login address with a
    percent-encoded query, in the shape the interface description gives. *)
Module Demo.

Definition scheme_char (c : Ascii.ascii) : bool :=
  let n := Ascii.nat_of_ascii c in
  (((97 <=? n) && (n <=? 122)) || ((65 <=? n) && (n <=? 90))
   || ((48 <=? n) && (n <=? 57)) || (n =? 43) || (n =? 45) || (n =? 46))%nat.

Fixpoint scheme_of (seen : bool) (u : string) : option string :=
  match u with
  | EmptyString => None
  | String c u' =>
      if scheme_char c then String c <$> scheme_of true u'
      else if seen && Ascii.eqb c ":" then Some ":" else None
  end.

Definition hex_digit (n : nat) : Ascii.ascii :=
  Ascii.ascii_of_nat (if (n <? 10)%nat then 48 + n else 55 + n).

Definition unreserved (c : Ascii.ascii) : bool :=
  let n := Ascii.nat_of_ascii c in
  (((97 <=? n) && (n <=? 122)) || ((65 <=? n) && (n <=? 90))
   || ((48 <=? n) && (n <=? 57)))%nat
  || bool_decide (c ∈ ["-"; "_"; "."; "!"; "~"; "*"; "'"; "("; ")"]%char).

Fixpoint escape (s : string) : string :=
  match s with
  | EmptyString => EmptyString
  | String c s' =>
      if unreserved c then String c (escape s')
      else let n := Ascii.nat_of_ascii c in
           String "%" (String (hex_digit (n / 16)) (String (hex_digit (n mod 16)) (escape s')))
  end.

Definition E : env := {|
  url_parse_protocol := λ u, scheme_of false (trim u);
  url_resolve := λ from to, from +:+ to;
  originalURL := λ _, "http://app.example.net:3000/auth/openam";
  global_callbackURL := None
|}.

Definition bob_attributes : value :=
  VObj [ ("tokenid", VStr "t1"); ("uid", VStr "bob"); ("cn", VStr "Bob Smith");
         ("sn", VStr "Smith"); ("givenname", VStr "Bob"); ("mail", VStr "bob@x.com") ].

(** What the strategy makes of them. *)
Definition bob_profile : value :=
  VObj [ ("id", VStr "t1");
         ("username", VStr "bob");
         ("displayName", VStr "Bob Smith");
         ("name", VObj [("familyName", VStr "Smith"); ("givenName", VStr "Bob")]);
         ("email", VStr "bob@x.com");
         ("_raw", bob_attributes) ].

(** The token is the string [t]. *)
Definition is_token (t : string) (token : value) : bool :=
  match token with
  | VStr s => String.eqb s t
  | _ => false
  end.

(** The client: token [tok123] is a valid session, and it belongs to bob;
    [down] is a valid session whose attributes cannot be fetched, and [void]
    one for which the provider answers [null]. *)
Definition client : openam_client := {|
  getLoginUiUrl := λ params,
    "http://sso.example.net/openam/UI/Login?goto=" +:+ escape (default "" (params !! "goto"));
  isTokenValid := λ token,
    is_token "tok123" token || is_token "down" token || is_token "void" token;
  callback_this := ThisOther;
  getAttributes := λ token,
    if is_token "tok123" token then (VNull, bob_attributes)
    else if is_token "void" token then (VNull, VNull)
    else (VStr "ECONNREFUSED", VUndefined)
|}.

(** The application accepts whoever has a profile: [done(null, profile)], as
    in examples/login/app.js. *)
Definition accept : request → value → value → verify_run :=
  λ _ _ profile, {| done_calls := [(VNull, profile, VUndefined)]; raises := None |}.

Definition options : strategy_options := {|
  openAmBaseUrl := Some "http://sso.example.net/openam/";
  callbackUrl := Some "http://app.example.net:3000/auth/openam/callback";
  openAmRealm := None;
  openAmCookieName := None;
  skipUserProfile := None;
  openAmLoginPage := None
|}.

Definition app : strategy := {|
  name := "openam";
  _verify := accept;
  _openAmRealm := "/";
  _openAmCookieName := "iPlanetDirectoryPro";
  _openam := client;
  _callbackUrl := "http://app.example.net:3000/auth/openam/callback";
  _skipUserProfile := SkipValue (VBool false);
  _openAmLoginPage := true
|}.

(** The same application configured differently. *)
Definition with_callbackUrl (u : string) (s : strategy) : strategy :=
  {| name := name s; _verify := _verify s; _openAmRealm := _openAmRealm s;
     _openAmCookieName := _openAmCookieName s; _openam := _openam s;
     _callbackUrl := u; _skipUserProfile := _skipUserProfile s;
     _openAmLoginPage := _openAmLoginPage s |}.

Definition with_skipUserProfile (k : skip_option) (s : strategy) : strategy :=
  {| name := name s; _verify := _verify s; _openAmRealm := _openAmRealm s;
     _openAmCookieName := _openAmCookieName s; _openam := _openam s;
     _callbackUrl := _callbackUrl s; _skipUserProfile := k;
     _openAmLoginPage := _openAmLoginPage s |}.

Definition with_verify (v : request → value → value → verify_run) (s : strategy) : strategy :=
  {| name := name s; _verify := v; _openAmRealm := _openAmRealm s;
     _openAmCookieName := _openAmCookieName s; _openam := _openam s;
     _callbackUrl := _callbackUrl s; _skipUserProfile := _skipUserProfile s;
     _openAmLoginPage := _openAmLoginPage s |}.

Definition no_options : authenticate_options := {| opt_callbackUrl := None |}.

(** [GET /auth/openam]: the first visit. *)
Definition first_visit : request :=
  {| query := VObj []; headers_cookie := None |}.

(** [GET /auth/openam/callback?code=true] with the given [Cookie] header. *)
Definition callback_visit (cookie : option string) : request :=
  {| query := VObj [("code", VStr "true")]; headers_cookie := cookie |}.

(** [GET /auth/openam/callback?error=access_denied&code=true], no cookie. *)
Definition refused_visit : request :=
  {| query := VObj [("error", VStr "access_denied"); ("code", VStr "true")];
     headers_cookie := None |}.
End Demo.

(** ** Further observers *)

(** The tokens [isTokenValid] was called with. *)
Definition validator_calls (t : list event) : list value :=
  omap (λ ev, match ev with CallIsTokenValid token => Some token | _ => None end) t.

(** The character [c] occurs in [s]. *)
Fixpoint occurs (c : Ascii.ascii) (s : string) : bool :=
  match s with
  | EmptyString => false
  | String x s' => Ascii.eqb x c || occurs c s'
  end.

(** The invariant of the dictionary: names and values are trimmed, and
    [__proto__] is never a name. *)
Definition tidy (cookies : gmap string string) : Prop :=
  ∀ k v, cookies !! k = Some v → trim k = k ∧ trim v = v ∧ k ≠ "__proto__".

(** What can happen once the validator has accepted [token]: calls about
    that token and this request, and outcomes that are an error or what
    [verify] said through its continuation. *)
Definition after_validation (self : strategy) (req : request) (token : value)
    (ev : event) : Prop :=
  match ev with
  | SetGlobal _ _ | CallIsTokenValid _ => False
  | CallSkipUserProfile _ => True
  | CallGetAttributes tok => tok = token
  | CallVerify r tok _ => r = req ∧ tok = token
  | Signal (Redirect _) => False
  | Signal (Success user info) =>
      truthy user = true
      ∧ ∃ profile err, (err, user, info) ∈ done_calls (_verify self req token profile)
                       ∧ truthy err = false
  | Signal (Fail info) =>
      ∃ profile err user, (err, user, info) ∈ done_calls (_verify self req token profile)
                          ∧ truthy err = false ∧ truthy user = false
  | Signal (Error _) => True
  end.

(** The token lines 97-119 take from the request for the validator: there
    is no [error], there is a [code], and the cookie of the configured name
    reads truthy. *)
Definition session_token (self : strategy) (req : request) : option value :=
  if has_error req then None
  else if has_code req then
    match headers_cookie req with
    | Some header =>
        let token := cookie_get (parse_cookies header) (_openAmCookieName self) in
        if truthy token then Some token else None
    | None => None
    end
  else None.

(** The one place [authenticate] redirects to. *)
Definition login_location (self : strategy) (options : authenticate_options) : string :=
  getLoginUiUrl (_openam self)
    {[ "goto" := effective_callback self options +:+ "?code=true" ]}.

(** The demo application with its session cookie under another name. *)
Definition demo_with_cookieName (n : string) : strategy :=
  {| name := name Demo.app; _verify := _verify Demo.app;
     _openAmRealm := _openAmRealm Demo.app; _openAmCookieName := n;
     _openam := _openam Demo.app; _callbackUrl := _callbackUrl Demo.app;
     _skipUserProfile := _skipUserProfile Demo.app;
     _openAmLoginPage := _openAmLoginPage Demo.app |}.

(** A report of an asynchronous skip function that makes the strategy fetch
    the profile: no error and nothing truthy for [skip] (lines 166-167). *)
Definition asks_for_profile (report : value * value) : bool :=
  negb (truthy report.1) && negb (truthy report.2).

(** The demo application with another [skipUserProfile]. *)
Definition demo_reporting (reports : list (value * value)) : strategy :=
  Demo.with_skipUserProfile (SkipAsync (λ _, reports)) Demo.app.

(** The demo application with a [verify] that hands the profile over and
    then raises [e]. *)
Definition demo_raising (e : value) : strategy :=
  Demo.with_verify
    (λ _ _ profile, {| done_calls := [(VNull, profile, VUndefined)]; raises := Some e |})
    Demo.app.

(** ** The example application (examples/login/app.js, lines 27-42)

    Its verify function is [function(token, profile, done)]: it defers
    [done(null, profile)] to the next tick. What that deferred call does
    depends on what the third actual argument is. *)

(** An actual argument of a call to the verify function. *)
Inductive argument :=
| ArgRequest (req : request)      (* the request object *)
| ArgValue (v : value)
| ArgContinuation.                (* the function of lines 124-128 of the strategy *)

(** The deferred call. *)
Inductive tick :=
| Continues (err : value) (user : argument)   (* the strategy's continuation is called *)
| CallsBuiltin (name : string)                (* a function of [Object.prototype] is called *)
| RaisesTypeError.                            (* [done] is not a function *)

Definition example_verify (args : list argument) : tick :=
  let profile := nth 1 args (ArgValue VUndefined) in
  let done := nth 2 args (ArgValue VUndefined) in
  match done with
  | ArgContinuation => Continues VNull profile
  | ArgValue (VBuiltin n) =>
      if String.eqb n "__proto__" then RaisesTypeError else CallsBuiltin n
  | ArgValue _ | ArgRequest _ => RaisesTypeError
  end.

(** * Properties *)

(** ** Laws of the trace monad *)

Lemma bind_ret {A B} (a : A) (k : A → M B) : (mret a ≫= k) = k a.
Proof. unfold mbind, M_bind, mret, M_ret. by destruct (k a). Qed.

Lemma bind_emit {B} (ev : event) (k : M B) : (emit ev;; k) = (ev :: k.1, k.2).
Proof. unfold mbind, M_bind, emit. by destruct k. Qed.

Lemma bind_unit_ret (m : M unit) : (m;; mret tt) = m.
Proof.
  destruct m as [t [e|[]]]; unfold mbind, M_bind, mret, M_ret; [done|].
  by rewrite app_nil_r.
Qed.

Lemma bind_returned {A B} (m : M A) (k : A → M B) t a :
  m = (t, inr a) → (m ≫= k) = (t ++ (k a).1, (k a).2).
Proof. intros ->. unfold mbind, M_bind. by destruct (k a). Qed.

Lemma signals_app t1 t2 : signals (t1 ++ t2) = signals t1 ++ signals t2.
Proof. apply omap_app. Qed.

Lemma attribute_fetches_app t1 t2 :
  attribute_fetches (t1 ++ t2) = attribute_fetches t1 ++ attribute_fetches t2.
Proof. apply omap_app. Qed.

Lemma verify_calls_app t1 t2 : verify_calls (t1 ++ t2) = verify_calls t1 ++ verify_calls t2.
Proof. apply omap_app. Qed.

(** Cut a trace at every [::] and [++], so that each piece is observed on
    its own. *)
Ltac observe :=
  unfold trace_of, thrown; cbn [fst snd];
  repeat first
    [ rewrite signals_app
    | rewrite attribute_fetches_app
    | rewrite verify_calls_app
    | match goal with
      | |- context [?f (?x :: ?l)] =>
          lazymatch l with [] => fail | _ => idtac end;
          first [ constr_eq f signals
                | constr_eq f attribute_fetches
                | constr_eq f verify_calls ];
          change (f (x :: l)) with (f ([x] ++ l))
      end ].

(** ** The continuation of [verify] *)

Lemma verified_verdict err user info : verified err user info = signal (verdict err user info).
Proof.
  unfold verified, verdict.
  destruct (truthy err); [done|]. by destruct (truthy user).
Qed.

Lemma for_each_verified (l : list (value * value * value)) :
  for_each (λ '(err, user, info), verified err user info) l =
    ((λ '(err, user, info), Signal (verdict err user info)) <$> l, inr tt).
Proof.
  induction l as [|[[err user] info] l IH]; [done|].
  simpl. rewrite IH, verified_verdict. reflexivity.
Qed.

Lemma call_verify_run self req token profile :
  call_verify self req token profile =
    (CallVerify req token profile ::
       ((λ '(err, user, info), Signal (verdict err user info))
          <$> done_calls (_verify self req token profile)),
     match raises (_verify self req token profile) with
     | Some e => inl e
     | None => inr tt
     end).
Proof.
  unfold call_verify. rewrite for_each_verified, bind_emit.
  destruct (raises (_verify self req token profile)); simpl; by rewrite ?app_nil_r.
Qed.

Lemma verdicts_fetch_nothing (l : list (value * value * value)) :
  attribute_fetches ((λ '(err, user, info), Signal (verdict err user info)) <$> l) = [].
Proof. induction l as [|[[??]?] l IH]; [done|]. exact IH. Qed.

Lemma verdicts_verify_nothing (l : list (value * value * value)) :
  verify_calls ((λ '(err, user, info), Signal (verdict err user info)) <$> l) = [].
Proof. induction l as [|[[??]?] l IH]; [done|]. exact IH. Qed.

Lemma signals_verdicts (l : list (value * value * value)) :
  signals ((λ '(err, user, info), Signal (verdict err user info)) <$> l)
  = (λ '(err, user, info), verdict err user info) <$> l.
Proof. induction l as [|[[??]?] l IH]; [done|]. simpl. by f_equal. Qed.

(** What line 125 takes for an error: every object is truthy, error
    objects included, and [null] and [undefined] are not. *)
Lemma error_objects_are_truthy message cause k props :
  truthy (VError message) = true
  ∧ truthy (VNativeError k) = true
  ∧ truthy (InternalOpenAmError message cause) = true
  ∧ truthy (VObj props) = true
  ∧ truthy VNull = false
  ∧ truthy VUndefined = false.
Proof. done. Qed.

(** ** The mapping of attributes *)

Lemma build_profile_raises data t e :
  build_profile data = (t, inl e) →
  (data = VUndefined ∨ data = VNull) ∧ t = [] ∧ e = VNativeError TypeError.
Proof.
  unfold build_profile, get_prop.
  destruct data; rewrite ?bind_ret; try discriminate;
    intros [= <- <-]; auto.
Qed.

Lemma build_profile_returns data t profile :
  build_profile data = (t, inr profile) → build_profile data = mret profile.
Proof.
  unfold build_profile, get_prop.
  destruct data; rewrite ?bind_ret; try discriminate; by intros [= <- <-].
Qed.

(** C4. For attributes that are neither [undefined] nor [null] the profile
    takes [id], [username], [displayName], [name.familyName],
    [name.givenName] and [email] from [tokenid], [uid], [cn], [sn],
    [givenname] and [mail], and keeps the attributes themselves under
    [_raw]; bob's attributes give bob's profile. *)
Theorem build_profile_maps_attributes :
  (∀ data, data ≠ VUndefined → data ≠ VNull →
     ∃ profile,
       build_profile data = mret profile
       ∧ get_own profile "id" = get_own data "tokenid"
       ∧ get_own profile "username" = get_own data "uid"
       ∧ get_own profile "displayName" = get_own data "cn"
       ∧ get_own (get_own profile "name") "familyName" = get_own data "sn"
       ∧ get_own (get_own profile "name") "givenName" = get_own data "givenname"
       ∧ get_own profile "email" = get_own data "mail"
       ∧ get_own profile "_raw" = data)
  ∧ build_profile Demo.bob_attributes = mret Demo.bob_profile.
Proof.
  split; [|reflexivity].
  intros data Hu Hn. eexists. split.
  - unfold build_profile, get_prop. destruct data; try done; by rewrite !bind_ret.
  - by split_and!.
Qed.

Lemma build_profile_maps_attributes_witness :
  ∃ profile,
    build_profile Demo.bob_attributes = mret profile
    ∧ get_own profile "id" = VStr "t1"
    ∧ get_own profile "_raw" = Demo.bob_attributes.
Proof.
  destruct (proj1 build_profile_maps_attributes Demo.bob_attributes)
    as (profile & Hp & Hid & _ & _ & _ & _ & _ & Hraw); [done | done |].
  exists profile. by split_and!.
Defined.

(** The profile has no property called [rawAttributes]. *)
Lemma profile_has_no_rawAttributes :
  ¬ ∃ profile,
      build_profile Demo.bob_attributes = mret profile
      ∧ get_own profile "rawAttributes" = Demo.bob_attributes.
Proof.
  intros (profile & Hp & Hraw). vm_compute in Hp.
  injection Hp as <-. vm_compute in Hraw. discriminate.
Qed.

(** ** Profile retrieval and skipping *)

Section Profile.
Variables (self : strategy) (req : request) (token : value).

(** [userProfile] when [getAttributes] reports an error. *)
Lemma userProfile_fetch_failed err data :
  getAttributes (_openam self) token = (err, data) →
  truthy err = true →
  userProfile self token (profile_loaded self req token) =
    ([CallGetAttributes token;
      Signal (Error (InternalOpenAmError "failed to get attributes" err))], inr tt).
Proof. unfold userProfile. by intros -> ->. Qed.

(** [userProfile] when the mapping raises. *)
Lemma userProfile_mapping_raised err data t e :
  getAttributes (_openam self) token = (err, data) →
  truthy err = false →
  build_profile data = (t, inl e) →
  userProfile self token (profile_loaded self req token) =
    ([CallGetAttributes token; Signal (Error e)], inr tt).
Proof.
  intros Hget Herr Hbuild.
  destruct (build_profile_raises _ _ _ Hbuild) as (_ & -> & ->).
  unfold userProfile. by rewrite Hget, Herr, Hbuild.
Qed.

(** [userProfile] when the profile is built and [verify] raises nothing
    falsy: [verify] runs inside the [try] block, so what it raises is caught
    on line 199 and signalled. *)
Lemma userProfile_verified err data profile :
  getAttributes (_openam self) token = (err, data) →
  truthy err = false →
  build_profile data = mret profile →
  raises_truthy (_verify self req token profile) = true →
  userProfile self token (profile_loaded self req token) =
    (CallGetAttributes token :: CallVerify req token profile ::
       ((λ '(err, user, info), Signal (verdict err user info))
          <$> done_calls (_verify self req token profile))
       ++ match raises (_verify self req token profile) with
          | Some e => [Signal (Error e)]
          | None => []
          end,
     inr tt).
Proof.
  intros Hget Herr Hbuild Hraise. unfold userProfile.
  rewrite Hget, Herr, Hbuild, bind_ret. cbn [profile_loaded truthy].
  rewrite call_verify_run, bind_emit.
  unfold raises_truthy in Hraise.
  destruct (raises (_verify self req token profile)) as [e|]; simpl.
  - unfold profile_loaded. by rewrite Hraise.
  - by rewrite app_nil_r.
Qed.

(** [userProfile] when the profile is built, whatever [verify] does: it is
    called with the profile, and its continuation calls are answered before
    anything the [catch] of line 199 adds. *)
Lemma userProfile_calls_verify err data profile :
  getAttributes (_openam self) token = (err, data) →
  truthy err = false →
  build_profile data = mret profile →
  ∃ rest r,
    userProfile self token (profile_loaded self req token) =
      (CallGetAttributes token :: CallVerify req token profile ::
         ((λ '(err, user, info), Signal (verdict err user info))
            <$> done_calls (_verify self req token profile))
         ++ rest,
       r)
    ∧ (raises (_verify self req token profile) = None → rest = [] ∧ r = inr tt).
Proof.
  intros Hget Herr Hbuild. unfold userProfile.
  rewrite Hget, Herr, Hbuild, bind_ret. cbn [profile_loaded truthy].
  rewrite call_verify_run, bind_emit.
  destruct (raises (_verify self req token profile)) as [e|]; simpl.
  - destruct (profile_loaded self req token e VUndefined) as [t' r'].
    exists t', r'. by split.
  - exists [], (inr tt). by rewrite app_nil_r.
Qed.

Lemma loadUserProfile_resolved done sk :
  skip_resolves (_skipUserProfile self) token = Some sk →
  _loadUserProfile self token done =
    let body := if sk then done VNull VUndefined else userProfile self token done in
    (skip_events (_skipUserProfile self) token ++ body.1, body.2).
Proof.
  unfold _loadUserProfile, skip_resolves, skip_events.
  destruct (_skipUserProfile self) as [v | result | f].
  - intros [= <-]. destruct (truthy v); simpl;
      by match goal with |- ?m = _ => destruct m end.
  - intros [= <-]. rewrite bind_emit. by destruct (truthy result).
  - destruct (f token) as [|[err skip] [|? ?]]; try discriminate.
    destruct (truthy err) eqn:Herr; [discriminate|].
    intros [= <-]. simpl. rewrite Herr, bind_unit_ret.
    destruct (truthy skip); simpl;
      by match goal with |- (let '(_, _) := ?m in _) = _ => destruct m end.
Qed.

Lemma skip_events_silent k :
  signals (skip_events k token) = []
  ∧ attribute_fetches (skip_events k token) = []
  ∧ verify_calls (skip_events k token) = [].
Proof. by destruct k. Qed.

End Profile.

(** ** Lines 103-111 *)

Section Callback.
Variables (E : env) (req : request) (u : string).

Lemma qualify_callback_absolute :
  relative E u = false → qualify_callback E req u = mret tt.
Proof.
  unfold relative, qualify_callback.
  destruct (negb (String.eqb u "")); [|done].
  by destruct (absent (url_parse_protocol E u)).
Qed.

Lemma qualify_callback_relative :
  relative E u = true →
  qualify_callback E req u =
    match global_callbackURL E with
    | None => throw (VNativeError ReferenceError)
    | Some g => emit (SetGlobal "callbackURL" (url_resolve E (originalURL E req) g))
    end.
Proof.
  unfold relative, qualify_callback.
  destruct (negb (String.eqb u "")); [|done].
  by destruct (absent (url_parse_protocol E u)).
Qed.

(** Whatever line 109 does, it reaches no channel and no collaborator of
    the handshake. *)
Lemma qualify_callback_cases :
  qualify_callback E req u = mret tt
  ∨ qualify_callback E req u = throw (VNativeError ReferenceError)
  ∨ ∃ v, qualify_callback E req u = emit (SetGlobal "callbackURL" v).
Proof.
  destruct (relative E u) eqn:Hrel.
  - rewrite (qualify_callback_relative Hrel).
    destruct (global_callbackURL E); eauto.
  - left. by apply qualify_callback_absolute.
Qed.

Lemma qualify_callback_passes :
  thrown (qualify_callback E req u) = None →
  ∃ t, qualify_callback E req u = (t, inr tt)
       ∧ signals t = [] ∧ attribute_fetches t = [] ∧ verify_calls t = [].
Proof.
  destruct qualify_callback_cases as [-> | [-> | [v ->]]]; [|done|]; by eexists.
Qed.

Lemma qualify_callback_absolute_passes :
  relative E u = false → thrown (qualify_callback E req u) = None.
Proof. intros Hrel. by rewrite (qualify_callback_absolute Hrel). Qed.

End Callback.

(** The per-request override wins when it is given and not empty. *)
Lemma effective_callback_override self options :
  effective_callback self options =
    match opt_callbackUrl options with
    | Some u => if String.eqb u "" then _callbackUrl self else u
    | None => _callbackUrl self
    end.
Proof. reflexivity. Qed.

(** ** The handshake *)

Section Handshake.
Variables (E : env) (self : strategy) (req : request) (options : authenticate_options).

(** The request carries no provider error, so line 100 is not taken. *)
Hypothesis no_error : has_error req = false.

Local Abbreviation callbackUrl := (effective_callback self options).
Local Abbreviation login_url :=
  (getLoginUiUrl (_openam self) {[ "goto" := callbackUrl +:+ "?code=true" ]}).

Lemma authenticate_no_error :
  authenticate E self req options =
    (qualify_callback E req callbackUrl;;
     if has_code req then
       match headers_cookie req with
       | None => throw (VNativeError TypeError)
       | Some header =>
           let token := cookie_get (parse_cookies header) (_openAmCookieName self) in
           if truthy token then
             emit (CallIsTokenValid token);;
             if isTokenValid (_openam self) token
             then _loadUserProfile self token (profile_loaded self req token)
             else match callback_this (_openam self) with
                  | ThisStrategy => login_redirect self callbackUrl
                  | ThisOther => throw (VNativeError TypeError)
                  end
           else mret tt
       end
     else login_redirect self callbackUrl).
Proof. unfold authenticate. by rewrite no_error. Qed.

(** C9. A request without [error] and without [code] is redirected to
    [getLoginUiUrl({goto: callbackUrl + "?code=true"})] whenever the callback
    URL needs no qualifying. When it is relative, line 109 reads the
    undeclared [callbackURL]: with no global of that name the call ends by a
    [ReferenceError] and nothing is signalled. *)
Theorem no_code_redirects_to_login :
  has_code req = false →
  (relative E callbackUrl = false →
   authenticate E self req options = ([Signal (Redirect login_url)], inr tt))
  ∧ (relative E callbackUrl = true → global_callbackURL E = None →
     authenticate E self req options = ([], inl (VNativeError ReferenceError))).
Proof.
  intros Hcode. rewrite authenticate_no_error, Hcode. split.
  - intros Hrel. by rewrite (qualify_callback_absolute _ _ _ Hrel), bind_ret.
  - intros Hrel Hglob. by rewrite (qualify_callback_relative _ _ _ Hrel), Hglob.
Qed.

(** C5. A relative callback URL is never qualified. Line 109 assigns to
    [callbackURL], not to the local [callbackUrl]: without a global of that
    name [authenticate] ends by a [ReferenceError] before anything is
    signalled; with one, the resolved URL lands in the global and the
    [goto] parameter still carries the relative URL as it was. *)
Theorem relative_callback_is_not_qualified :
  relative E callbackUrl = true →
  match global_callbackURL E with
  | None => authenticate E self req options = ([], inl (VNativeError ReferenceError))
  | Some g =>
      has_code req = false →
      authenticate E self req options =
        ([SetGlobal "callbackURL" (url_resolve E (originalURL E req) g);
          Signal (Redirect login_url)],
         inr tt)
  end.
Proof.
  intros Hrel. rewrite authenticate_no_error.
  rewrite (qualify_callback_relative _ _ _ Hrel).
  destruct (global_callbackURL E) as [g|]; [|done].
  by intros ->.
Qed.

Section Code.
(** The request carries [code]: line 112 is taken. *)
Hypothesis code : has_code req = true.

(** C10. A request with a truthy [code], no [error] and no [Cookie] header
    at all signals nothing and ends by an exception; once line 109 is past,
    that exception is the [TypeError] of [req.headers.cookie.split]. *)
Theorem code_without_cookie_header_raises :
  headers_cookie req = None →
  signals (trace_of (authenticate E self req options)) = []
  ∧ is_Some (thrown (authenticate E self req options))
  ∧ (thrown (qualify_callback E req callbackUrl) = None →
     thrown (authenticate E self req options) = Some (VNativeError TypeError)).
Proof.
  intros Hcookie. rewrite authenticate_no_error, code, Hcookie.
  destruct (qualify_callback_cases E req callbackUrl) as [-> | [-> | [v ->]]];
    split_and!; done || by eexists.
Qed.

Section Cookies.
Variable header : string.
Hypothesis cookie_header : headers_cookie req = Some header.

Local Abbreviation token := (cookie_get (parse_cookies header) (_openAmCookieName self)).

(** C2. With [code] in the query and no usable session cookie in the
    header, [authenticate] signals nothing: the test of line 118 has no
    [else], so neither the redirect nor any other channel is reached. *)
Theorem code_without_session_cookie_signals_nothing :
  truthy token = false →
  signals (trace_of (authenticate E self req options)) = []
  ∧ (relative E callbackUrl = false → authenticate E self req options = ([], inr tt)).
Proof.
  intros Htoken. rewrite authenticate_no_error, code, cookie_header. simpl.
  rewrite Htoken. split.
  - destruct (qualify_callback_cases E req callbackUrl) as [-> | [-> | [v ->]]]; done.
  - intros Hrel. by rewrite (qualify_callback_absolute _ _ _ Hrel).
Qed.

(** A header in which the session cookie does not occur is such a case,
    unless the cookie bears the name of a member of [Object.prototype]. *)
Lemma absent_cookie_is_falsy :
  parse_cookies header !! _openAmCookieName self = None →
  _openAmCookieName self ∉ object_prototype_keys →
  truthy token = false.
Proof.
  intros Hnone Hproto. unfold cookie_get. rewrite Hnone.
  by rewrite bool_decide_eq_false_2.
Qed.

(** C3. When the validator reports the token invalid, the callback of line
    120 goes on with [this], not with [self]. Called as a plain function it
    finds no [_openam] on its receiver: a [TypeError] is raised inside the
    callback and no channel is reached, the redirect included. *)
Theorem invalid_token_signals_nothing :
  truthy token = true →
  isTokenValid (_openam self) token = false →
  callback_this (_openam self) = ThisOther →
  signals (trace_of (authenticate E self req options)) = []
  ∧ is_Some (thrown (authenticate E self req options))
  ∧ (relative E callbackUrl = false →
     authenticate E self req options =
       ([CallIsTokenValid token], inl (VNativeError TypeError))).
Proof.
  intros Htoken Hvalid Hthis.
  rewrite authenticate_no_error, code, cookie_header. simpl.
  rewrite Htoken, Hvalid, Hthis.
  split_and!.
  - destruct (qualify_callback_cases E req callbackUrl) as [-> | [-> | [v ->]]]; done.
  - destruct (qualify_callback_cases E req callbackUrl) as [-> | [-> | [v ->]]];
      by eexists.
  - intros Hrel. by rewrite (qualify_callback_absolute _ _ _ Hrel).
Qed.

(** Had the client bound the strategy as receiver, the redirect of lines
    131-134 would be reached. *)
Lemma invalid_token_redirects_on_strategy_receiver :
  truthy token = true →
  isTokenValid (_openam self) token = false →
  callback_this (_openam self) = ThisStrategy →
  relative E callbackUrl = false →
  authenticate E self req options =
    ([CallIsTokenValid token; Signal (Redirect login_url)], inr tt).
Proof.
  intros Htoken Hvalid Hthis Hrel.
  rewrite authenticate_no_error, code, cookie_header. simpl.
  by rewrite Htoken, Hvalid, Hthis, (qualify_callback_absolute _ _ _ Hrel).
Qed.

Section ValidToken.
(** The session cookie is there, the validator accepts its token, and line
    109 has not raised. *)
Hypothesis token_present : truthy token = true.
Hypothesis token_valid : isTokenValid (_openam self) token = true.
Hypothesis callback_passed : thrown (qualify_callback E req callbackUrl) = None.

Lemma authenticate_valid_token :
  ∃ t, signals t = [] ∧ attribute_fetches t = [] ∧ verify_calls t = []
       ∧ authenticate E self req options =
           let rest := _loadUserProfile self token (profile_loaded self req token) in
           (t ++ CallIsTokenValid token :: rest.1, rest.2).
Proof.
  destruct (qualify_callback_passes E req callbackUrl callback_passed)
    as (t & Hq & Hs & Hf & Hv).
  exists t. split_and!; [done..|].
  rewrite authenticate_no_error, code, cookie_header. simpl.
  rewrite token_present, token_valid, (bind_returned _ _ _ _ Hq).
  by destruct (_loadUserProfile self token (profile_loaded self req token)).
Qed.

(** [authenticate] once the skip option has resolved. *)
Lemma authenticate_session sk :
  skip_resolves (_skipUserProfile self) token = Some sk →
  ∃ t, signals t = [] ∧ attribute_fetches t = [] ∧ verify_calls t = []
       ∧ authenticate E self req options =
           let body := if sk then call_verify self req token VUndefined
                       else userProfile self token (profile_loaded self req token) in
           (t ++ body.1, body.2).
Proof.
  intros Hskip.
  destruct authenticate_valid_token as (t & Hs & Hf & Hv & ->).
  destruct (skip_events_silent token (_skipUserProfile self)) as (Hss & Hsf & Hsv).
  exists (t ++ CallIsTokenValid token :: skip_events (_skipUserProfile self) token).
  rewrite (loadUserProfile_resolved _ _ _ _ Hskip).
  split_and!.
  - observe. by rewrite Hs, Hss.
  - observe. by rewrite Hf, Hsf.
  - observe. by rewrite Hv, Hsv.
  - cbn zeta. cbn [fst snd]. rewrite <- app_assoc. simpl. by destruct sk.
Qed.

(** C6. On a request with a present, valid session token, with the skip
    option resolved and a [verify] that raises nothing falsy: when the
    profile is skipped, [getAttributes] is not called and [verify] is called
    once, with [undefined] for the profile; otherwise [getAttributes] is
    called once, and [verify] is called once with the profile built from the
    attributes, or not at all when the fetch or the mapping failed. *)
Theorem valid_token_fetches_and_verifies sk err data :
  skip_resolves (_skipUserProfile self) token = Some sk →
  getAttributes (_openam self) token = (err, data) →
  (∀ profile, raises_truthy (_verify self req token profile) = true) →
  let t := trace_of (authenticate E self req options) in
  if sk
  then attribute_fetches t = [] ∧ verify_calls t = [(req, token, VUndefined)]
  else attribute_fetches t = [token]
       ∧ verify_calls t =
           (if truthy err then []
            else match build_profile data with
                 | (_, inr profile) => [(req, token, profile)]
                 | (_, inl _) => []
                 end).
Proof.
  intros Hskip Hget Hraise t. subst t.
  destruct (authenticate_session _ Hskip) as (t & _ & Hf & Hv & ->).
  destruct sk.
  - rewrite call_verify_run. observe.
    by rewrite Hf, Hv, verdicts_fetch_nothing, verdicts_verify_nothing.
  - destruct (truthy err) eqn:Htr.
    + rewrite (userProfile_fetch_failed _ _ _ _ _ Hget Htr). observe.
      by rewrite Hf, Hv.
    + destruct (build_profile data) as [tb [e | profile]] eqn:Hbuild.
      * rewrite (userProfile_mapping_raised _ _ _ _ _ _ _ Hget Htr Hbuild). observe.
        by rewrite Hf, Hv.
      * rewrite (userProfile_verified _ _ _ _ _ _ Hget Htr
                   (build_profile_returns _ _ _ Hbuild) (Hraise profile)).
        unfold trace_of. cbn [fst].
        change (?x :: ?y :: ?l) with ([x; y] ++ l).
        rewrite !attribute_fetches_app, !verify_calls_app, Hf, Hv,
          verdicts_fetch_nothing, verdicts_verify_nothing.
        by destruct (raises (_verify self req token profile)).
Qed.

(** C7. On a request with a valid token, once [verify] has been handed the
    profile, each call it makes to its continuation is answered by the
    outcome that the arguments [(err, user, info)] of the call decide, in the
    order of the calls: [Error err] for a truthy [err]; for a falsy [err]
    ([null] and [undefined], and [0], [""] and [false] as well), [Fail info]
    when [user] is falsy and [Success user info] when it is truthy. When
    [verify] raises nothing these are all the outcomes there are, [verify]
    has been called once and nothing is left uncaught. *)
Theorem verify_continuation_decides sk profile :
  skip_resolves (_skipUserProfile self) token = Some sk →
  (if sk then profile = VUndefined
   else ∃ e data, getAttributes (_openam self) token = (e, data)
                  ∧ truthy e = false
                  ∧ build_profile data = mret profile) →
  let a := authenticate E self req options in
  let run := _verify self req token profile in
  (∀ i err user info,
     done_calls run !! i = Some (err, user, info) →
     (truthy err = true → signals (trace_of a) !! i = Some (Error err))
     ∧ (truthy err = false → truthy user = false →
        signals (trace_of a) !! i = Some (Fail info))
     ∧ (truthy err = false → truthy user = true →
        signals (trace_of a) !! i = Some (Success user info)))
  ∧ (raises run = None →
     length (signals (trace_of a)) = length (done_calls run)
     ∧ verify_calls (trace_of a) = [(req, token, profile)]
     ∧ thrown a = None).
Proof.
  intros Hskip Hprofile a run.
  destruct (authenticate_session _ Hskip) as (t & Hs & _ & Hv & Ha).
  assert (∃ rest r,
            a = (t ++ (if sk then [] else [CallGetAttributes token])
                   ++ [CallVerify req token profile]
                   ++ ((λ '(err, user, info), Signal (verdict err user info))
                         <$> done_calls run)
                   ++ rest, r)
            ∧ (raises run = None → rest = [] ∧ r = inr tt)) as (rest & r & -> & Hquiet).
  { subst a. rewrite Ha. destruct sk.
    - subst profile. rewrite call_verify_run. fold run.
      exists [], (match raises run with Some e => inl e | None => inr tt end).
      split; [by rewrite app_nil_r|]. by intros ->.
    - destruct Hprofile as (e & data & Hget & He & Hbuild).
      destruct (userProfile_calls_verify self req _ _ _ _ Hget He Hbuild)
        as (rest & r & -> & Hquiet).
      by exists rest, r. }
  assert (signals (t ++ (if sk then [] else [CallGetAttributes token])
                     ++ [CallVerify req token profile]
                     ++ ((λ '(err, user, info), Signal (verdict err user info))
                           <$> done_calls run)
                     ++ rest)
          = ((λ '(err, user, info), verdict err user info) <$> done_calls run)
            ++ signals rest) as Hsig.
  { rewrite !signals_app, Hs, signals_verdicts. by destruct sk. }
  unfold trace_of, thrown. cbn [fst snd]. rewrite Hsig.
  split.
  - intros i err user info Hcall.
    assert ((((λ '(err, user, info), verdict err user info) <$> done_calls run)
             ++ signals rest) !! i = Some (verdict err user info)) as ->.
    { apply lookup_app_l_Some. by rewrite list_lookup_fmap, Hcall. }
    unfold verdict. split_and!.
    + by intros ->.
    + by intros -> ->.
    + by intros -> ->.
  - intros Hnone. destruct (Hquiet Hnone) as [-> ->].
    split_and!; [|by rewrite !verify_calls_app, Hv, verdicts_verify_nothing; destruct sk|done].
    change (signals []) with (@nil outcome).
    by rewrite app_nil_r, length_fmap.
Qed.

(** C8. On a request with a valid token, a failure of profile resolution
    ends in the error channel alone and nothing is left uncaught: an error
    from [getAttributes] is signalled wrapped in [InternalOpenAmError], an
    exception raised by the mapping is caught and signalled, and so is an
    error reported by an asynchronous skip function; [verify] is not
    called. *)
Theorem profile_failures_reach_error_channel :
  let a := authenticate E self req options in
  (∀ err data,
     skip_resolves (_skipUserProfile self) token = Some false →
     getAttributes (_openam self) token = (err, data) →
     truthy err = true →
     signals (trace_of a) = [Error (InternalOpenAmError "failed to get attributes" err)]
     ∧ thrown a = None ∧ verify_calls (trace_of a) = [])
  ∧ (∀ err data t e,
       skip_resolves (_skipUserProfile self) token = Some false →
       getAttributes (_openam self) token = (err, data) →
       truthy err = false →
       build_profile data = (t, inl e) →
       signals (trace_of a) = [Error e]
       ∧ thrown a = None ∧ verify_calls (trace_of a) = [])
  ∧ (∀ f err skip,
       _skipUserProfile self = SkipAsync f →
       f token = [(err, skip)] →
       truthy err = true →
       signals (trace_of a) = [Error err]
       ∧ thrown a = None ∧ verify_calls (trace_of a) = []).
Proof.
  intros a. split_and!.
  - intros err data Hskip Hget He. subst a.
    destruct (authenticate_session _ Hskip) as (t & Hs & _ & Hv & ->).
    rewrite (userProfile_fetch_failed _ _ _ _ _ Hget He). observe.
    by rewrite Hs, Hv.
  - intros err data tb e Hskip Hget He Hbuild. subst a.
    destruct (authenticate_session _ Hskip) as (t & Hs & _ & Hv & ->).
    rewrite (userProfile_mapping_raised _ _ _ _ _ _ _ Hget He Hbuild). observe.
    by rewrite Hs, Hv.
  - intros f err skip Hopt Hf He. subst a.
    destruct authenticate_valid_token as (t & Hs & _ & Hv & ->).
    unfold _loadUserProfile. rewrite Hopt, Hf. simpl.
    unfold profile_loaded. rewrite He. observe.
    by rewrite Hs, Hv.
Qed.

End ValidToken.
End Cookies.
End Code.
End Handshake.

(** ** The handshake on the demo deployment *)

(** The constructor builds the demo strategy from its options, and refuses
    options without [callbackUrl]. *)
Example OpenAmStrategy_demo :
  OpenAmStrategy (λ _ _ _, Demo.client) Demo.options Demo.accept = inr Demo.app
  ∧ OpenAmStrategy (λ _ _ _, Demo.client)
      {| openAmBaseUrl := Some "http://sso.example.net/openam/"; callbackUrl := None;
         openAmRealm := None; openAmCookieName := None; skipUserProfile := None;
         openAmLoginPage := None |} Demo.accept
    = inl (VError "OpenAmStrategy requires a callbackUrl option").
Proof. split; reflexivity. Qed.

(** The token is read from the cookie header. *)
Example session_token_of_header :
  cookie_get (parse_cookies "iPlanetDirectoryPro=tok123; other=x") "iPlanetDirectoryPro"
  = VStr "tok123".
Proof. reflexivity. Qed.

Lemma no_code_redirects_to_login_witness :
  authenticate Demo.E Demo.app Demo.first_visit Demo.no_options =
    ([Signal (Redirect
        "http://sso.example.net/openam/UI/Login?goto=http%3A%2F%2Fapp.example.net%3A3000%2Fauth%2Fopenam%2Fcallback%3Fcode%3Dtrue")],
     inr tt)
  ∧ authenticate Demo.E (Demo.with_callbackUrl "/auth/openam/callback" Demo.app)
      Demo.first_visit Demo.no_options = ([], inl (VNativeError ReferenceError)).
Proof.
  split.
  - apply (no_code_redirects_to_login Demo.E Demo.app Demo.first_visit Demo.no_options);
      reflexivity.
  - apply (no_code_redirects_to_login Demo.E
             (Demo.with_callbackUrl "/auth/openam/callback" Demo.app)
             Demo.first_visit Demo.no_options); reflexivity.
Defined.

Lemma relative_callback_is_not_qualified_witness :
  authenticate Demo.E (Demo.with_callbackUrl "/auth/openam/callback" Demo.app)
    (Demo.callback_visit (Some "iPlanetDirectoryPro=tok123")) Demo.no_options
  = ([], inl (VNativeError ReferenceError)).
Proof.
  apply (relative_callback_is_not_qualified Demo.E
           (Demo.with_callbackUrl "/auth/openam/callback" Demo.app)
           (Demo.callback_visit (Some "iPlanetDirectoryPro=tok123")) Demo.no_options);
    reflexivity.
Defined.

(** With a global [callbackURL] around, the first visit is redirected, and
    [goto] carries the relative URL. *)
Example relative_callback_with_global :
  let E' := {| url_parse_protocol := url_parse_protocol Demo.E;
               url_resolve := url_resolve Demo.E;
               originalURL := originalURL Demo.E;
               global_callbackURL := Some "/elsewhere" |} in
  signals (trace_of (authenticate E' (Demo.with_callbackUrl "/auth/openam/callback" Demo.app)
                       Demo.first_visit Demo.no_options))
  = [Redirect "http://sso.example.net/openam/UI/Login?goto=%2Fauth%2Fopenam%2Fcallback%3Fcode%3Dtrue"].
Proof. reflexivity. Qed.

Lemma code_without_cookie_header_raises_witness :
  signals (trace_of (authenticate Demo.E Demo.app (Demo.callback_visit None)
                       Demo.no_options)) = []
  ∧ thrown (authenticate Demo.E Demo.app (Demo.callback_visit None) Demo.no_options)
    = Some (VNativeError TypeError).
Proof.
  destruct (code_without_cookie_header_raises Demo.E Demo.app (Demo.callback_visit None)
              Demo.no_options eq_refl eq_refl eq_refl) as (Hsilent & _ & Hraised).
  split; [exact Hsilent | exact (Hraised eq_refl)].
Defined.

(** With an [error] parameter next to [code], line 100 answers first: the
    request fails and no exception is raised, cookie header or not. *)
Lemma error_and_code_without_cookie_header_fails :
  has_code Demo.refused_visit = true
  ∧ headers_cookie Demo.refused_visit = None
  ∧ authenticate Demo.E Demo.app Demo.refused_visit Demo.no_options
    = ([Signal (Fail VUndefined)], inr tt)
  ∧ ¬ (signals (trace_of (authenticate Demo.E Demo.app Demo.refused_visit Demo.no_options)) = []
       ∧ is_Some (thrown (authenticate Demo.E Demo.app Demo.refused_visit Demo.no_options))).
Proof.
  split_and!; [done | done | done |].
  intros [Hs _]. vm_compute in Hs. discriminate.
Qed.

Lemma code_without_session_cookie_signals_nothing_witness :
  authenticate Demo.E Demo.app (Demo.callback_visit (Some "lang=en; theme=dark"))
    Demo.no_options = ([], inr tt).
Proof.
  apply (code_without_session_cookie_signals_nothing Demo.E Demo.app
           (Demo.callback_visit (Some "lang=en; theme=dark")) Demo.no_options
           eq_refl eq_refl "lang=en; theme=dark"); reflexivity.
Defined.

Lemma invalid_token_signals_nothing_witness :
  authenticate Demo.E Demo.app
    (Demo.callback_visit (Some "iPlanetDirectoryPro=expired; other=x")) Demo.no_options
  = ([CallIsTokenValid (VStr "expired")], inl (VNativeError TypeError)).
Proof.
  apply (invalid_token_signals_nothing Demo.E Demo.app
           (Demo.callback_visit (Some "iPlanetDirectoryPro=expired; other=x"))
           Demo.no_options eq_refl eq_refl "iPlanetDirectoryPro=expired; other=x");
    reflexivity.
Defined.

Lemma valid_token_fetches_and_verifies_witness :
  let req := Demo.callback_visit (Some "iPlanetDirectoryPro=tok123; other=x") in
  let skipping := Demo.with_skipUserProfile (SkipValue (VBool true)) Demo.app in
  let t := trace_of (authenticate Demo.E skipping req Demo.no_options) in
  let t' := trace_of (authenticate Demo.E Demo.app req Demo.no_options) in
  (attribute_fetches t = [] ∧ verify_calls t = [(req, VStr "tok123", VUndefined)])
  ∧ (attribute_fetches t' = [VStr "tok123"]
     ∧ verify_calls t' = [(req, VStr "tok123", Demo.bob_profile)]).
Proof.
  split.
  - exact (valid_token_fetches_and_verifies Demo.E
             (Demo.with_skipUserProfile (SkipValue (VBool true)) Demo.app)
             (Demo.callback_visit (Some "iPlanetDirectoryPro=tok123; other=x"))
             Demo.no_options eq_refl eq_refl "iPlanetDirectoryPro=tok123; other=x"
             eq_refl eq_refl eq_refl eq_refl true VNull Demo.bob_attributes
             eq_refl eq_refl (λ _, eq_refl)).
  - exact (valid_token_fetches_and_verifies Demo.E Demo.app
             (Demo.callback_visit (Some "iPlanetDirectoryPro=tok123; other=x"))
             Demo.no_options eq_refl eq_refl "iPlanetDirectoryPro=tok123; other=x"
             eq_refl eq_refl eq_refl eq_refl false VNull Demo.bob_attributes
             eq_refl eq_refl (λ _, eq_refl)).
Defined.

(** A valid token whose attributes cannot be fetched: [getAttributes] is
    called once and [verify] is never called. *)
Lemma failed_fetch_never_verifies :
  let req := Demo.callback_visit (Some "iPlanetDirectoryPro=down") in
  let t := trace_of (authenticate Demo.E Demo.app req Demo.no_options) in
  cookie_get (parse_cookies "iPlanetDirectoryPro=down") (_openAmCookieName Demo.app)
    = VStr "down"
  ∧ isTokenValid (_openam Demo.app) (VStr "down") = true
  ∧ skip_resolves (_skipUserProfile Demo.app) (VStr "down") = Some false
  ∧ attribute_fetches t = [VStr "down"]
  ∧ ¬ (length (verify_calls t) = 1).
Proof. split_and!; try reflexivity. vm_compute. discriminate. Qed.

Lemma verify_continuation_decides_witness :
  let req := Demo.callback_visit (Some "iPlanetDirectoryPro=tok123; other=x") in
  let skipping := Demo.with_skipUserProfile (SkipSync (VBool true)) Demo.app in
  let failing := Demo.with_verify
    (λ _ _ _, {| done_calls := [(VError "no database", VNull, VNull)]; raises := None |})
    Demo.app in
  let twice := Demo.with_verify
    (λ _ _ _, {| done_calls := [(VNull, VStr "bob", VNull); (VStr "", VNull, VStr "late")];
                 raises := None |})
    Demo.app in
  let outcomes s := signals (trace_of (authenticate Demo.E s req Demo.no_options)) in
  (outcomes skipping !! 0 = Some (Fail VUndefined) ∧ length (outcomes skipping) = 1)
  ∧ (outcomes failing !! 0 = Some (Error (VError "no database"))
     ∧ length (outcomes failing) = 1)
  ∧ (outcomes Demo.app !! 0 = Some (Success Demo.bob_profile VUndefined)
     ∧ length (outcomes Demo.app) = 1)
  ∧ (outcomes twice !! 0 = Some (Success (VStr "bob") VNull)
     ∧ outcomes twice !! 1 = Some (Fail (VStr "late"))
     ∧ length (outcomes twice) = 2).
Proof.
  assert (∃ e data, getAttributes Demo.client (VStr "tok123") = (e, data)
                    ∧ truthy e = false
                    ∧ build_profile data = mret Demo.bob_profile) as Hfetched
    by (by exists VNull, Demo.bob_attributes).
  pose proof
    (verify_continuation_decides Demo.E
       (Demo.with_skipUserProfile (SkipSync (VBool true)) Demo.app)
       (Demo.callback_visit (Some "iPlanetDirectoryPro=tok123; other=x"))
       Demo.no_options eq_refl eq_refl "iPlanetDirectoryPro=tok123; other=x"
       eq_refl eq_refl eq_refl eq_refl true VUndefined eq_refl eq_refl) as Hskipping.
  pose proof
    (verify_continuation_decides Demo.E
       (Demo.with_verify
          (λ _ _ _, {| done_calls := [(VError "no database", VNull, VNull)];
                       raises := None |}) Demo.app)
       (Demo.callback_visit (Some "iPlanetDirectoryPro=tok123; other=x"))
       Demo.no_options eq_refl eq_refl "iPlanetDirectoryPro=tok123; other=x"
       eq_refl eq_refl eq_refl eq_refl false Demo.bob_profile eq_refl Hfetched) as Hfailing.
  pose proof
    (verify_continuation_decides Demo.E Demo.app
       (Demo.callback_visit (Some "iPlanetDirectoryPro=tok123; other=x"))
       Demo.no_options eq_refl eq_refl "iPlanetDirectoryPro=tok123; other=x"
       eq_refl eq_refl eq_refl eq_refl false Demo.bob_profile eq_refl Hfetched) as Haccept.
  pose proof
    (verify_continuation_decides Demo.E
       (Demo.with_verify
          (λ _ _ _, {| done_calls := [(VNull, VStr "bob", VNull);
                                      (VStr "", VNull, VStr "late")];
                       raises := None |}) Demo.app)
       (Demo.callback_visit (Some "iPlanetDirectoryPro=tok123; other=x"))
       Demo.no_options eq_refl eq_refl "iPlanetDirectoryPro=tok123; other=x"
       eq_refl eq_refl eq_refl eq_refl false Demo.bob_profile eq_refl Hfetched) as Htwice.
  intros req skipping failing twice outcomes.
  split_and!.
  - exact (proj1 (proj2 (proj1 Hskipping 0 VNull VUndefined VUndefined eq_refl))
             eq_refl eq_refl).
  - exact (proj1 (proj2 Hskipping eq_refl)).
  - exact (proj1 (proj1 Hfailing 0 (VError "no database") VNull VNull eq_refl) eq_refl).
  - exact (proj1 (proj2 Hfailing eq_refl)).
  - exact (proj2 (proj2 (proj1 Haccept 0 VNull Demo.bob_profile VUndefined eq_refl))
             eq_refl eq_refl).
  - exact (proj1 (proj2 Haccept eq_refl)).
  - exact (proj2 (proj2 (proj1 Htwice 0 VNull (VStr "bob") VNull eq_refl))
             eq_refl eq_refl).
  - exact (proj1 (proj2 (proj1 Htwice 1 (VStr "") VNull (VStr "late") eq_refl))
             eq_refl eq_refl).
  - exact (proj1 (proj2 Htwice eq_refl)).
Defined.

(** A first argument that is not [null] and yet no error for line 125: when
    [verify] continues with [(0, "alice", "all")], [(false, "alice", "all")]
    or [("", null, "who")], the strategy signals [Success] or [Fail], and
    not [Error]. *)
Lemma falsy_error_is_not_signalled :
  let req := Demo.callback_visit (Some "iPlanetDirectoryPro=tok123; other=x") in
  let continuing err user info :=
    Demo.with_verify
      (λ _ _ _, {| done_calls := [(err, user, info)]; raises := None |}) Demo.app in
  let outcomes s := signals (trace_of (authenticate Demo.E s req Demo.no_options)) in
  (VNum 0 ≠ VNull ∧ VNum 0 ≠ VUndefined
   ∧ verify_calls (trace_of (authenticate Demo.E
                               (continuing (VNum 0) (VStr "alice") (VStr "all"))
                               req Demo.no_options))
     = [(req, VStr "tok123", Demo.bob_profile)]
   ∧ outcomes (continuing (VNum 0) (VStr "alice") (VStr "all"))
     = [Success (VStr "alice") (VStr "all")]
   ∧ outcomes (continuing (VNum 0) (VStr "alice") (VStr "all")) ≠ [Error (VNum 0)])
  ∧ (VBool false ≠ VNull ∧ VBool false ≠ VUndefined
     ∧ outcomes (continuing (VBool false) (VStr "alice") (VStr "all"))
       = [Success (VStr "alice") (VStr "all")]
     ∧ outcomes (continuing (VBool false) (VStr "alice") (VStr "all"))
       ≠ [Error (VBool false)])
  ∧ (VStr "" ≠ VNull ∧ VStr "" ≠ VUndefined
     ∧ outcomes (continuing (VStr "") VNull (VStr "who")) = [Fail (VStr "who")]
     ∧ outcomes (continuing (VStr "") VNull (VStr "who")) ≠ [Error (VStr "")]).
Proof. split_and!; try discriminate; try reflexivity; vm_compute; discriminate. Qed.

Lemma profile_failures_reach_error_channel_witness :
  let visit token := Demo.callback_visit (Some ("iPlanetDirectoryPro=" +:+ token)) in
  let asking := Demo.with_skipUserProfile
    (SkipAsync (λ _, [(VError "policy store unreachable", VUndefined)])) Demo.app in
  signals (trace_of (authenticate Demo.E Demo.app (visit "down") Demo.no_options))
  = [Error (InternalOpenAmError "failed to get attributes" (VStr "ECONNREFUSED"))]
  ∧ signals (trace_of (authenticate Demo.E Demo.app (visit "void") Demo.no_options))
    = [Error (VNativeError TypeError)]
  ∧ signals (trace_of (authenticate Demo.E asking (visit "tok123") Demo.no_options))
    = [Error (VError "policy store unreachable")].
Proof.
  split_and!.
  - refine (proj1 (proj1
      (profile_failures_reach_error_channel Demo.E Demo.app
         (Demo.callback_visit (Some "iPlanetDirectoryPro=down")) Demo.no_options
         eq_refl eq_refl "iPlanetDirectoryPro=down" eq_refl eq_refl eq_refl eq_refl)
      (VStr "ECONNREFUSED") VUndefined eq_refl eq_refl eq_refl)).
  - refine (proj1 (proj1 (proj2
      (profile_failures_reach_error_channel Demo.E Demo.app
         (Demo.callback_visit (Some "iPlanetDirectoryPro=void")) Demo.no_options
         eq_refl eq_refl "iPlanetDirectoryPro=void" eq_refl eq_refl eq_refl eq_refl))
      VNull VNull [] (VNativeError TypeError) eq_refl eq_refl eq_refl eq_refl)).
  - refine (proj1 (proj2 (proj2
      (profile_failures_reach_error_channel Demo.E
         (Demo.with_skipUserProfile
            (SkipAsync (λ _, [(VError "policy store unreachable", VUndefined)])) Demo.app)
         (Demo.callback_visit (Some "iPlanetDirectoryPro=tok123")) Demo.no_options
         eq_refl eq_refl "iPlanetDirectoryPro=tok123" eq_refl eq_refl eq_refl eq_refl))
      _ (VError "policy store unreachable") VUndefined eq_refl eq_refl eq_refl)).
Defined.

(** The whole handshake for bob: token checked, attributes fetched, profile
    handed to [verify], success signalled with the profile as user. *)
Example bob_signs_in :
  let req := Demo.callback_visit (Some "iPlanetDirectoryPro=tok123; other=x") in
  authenticate Demo.E Demo.app req Demo.no_options
  = ([CallIsTokenValid (VStr "tok123"); CallGetAttributes (VStr "tok123");
      CallVerify req (VStr "tok123") Demo.bob_profile;
      Signal (Success Demo.bob_profile VUndefined)],
     inr tt).
Proof. reflexivity. Qed.

(** ** How many outcomes *)

(** C1. Requests on which [authenticate] reaches none of the four channels:
    one whose cookie header lacks the session cookie (the call just
    returns), and one whose token the validator rejects (the callback ends
    by a [TypeError]). *)
Theorem authenticate_can_signal_nothing :
  let missing := Demo.callback_visit (Some "other=x") in
  let expired := Demo.callback_visit (Some "iPlanetDirectoryPro=expired") in
  (signals (trace_of (authenticate Demo.E Demo.app missing Demo.no_options)) = []
   ∧ thrown (authenticate Demo.E Demo.app missing Demo.no_options) = None)
  ∧ (signals (trace_of (authenticate Demo.E Demo.app expired Demo.no_options)) = []
     ∧ thrown (authenticate Demo.E Demo.app expired Demo.no_options)
       = Some (VNativeError TypeError)).
Proof. by vm_compute. Qed.

(** A [verify] that calls its continuation and then raises is answered
    twice: the exception surfaces inside the [try] block of [userProfile]
    and line 200 calls [done] again. *)
Example raising_verify_is_answered_twice :
  let careless : request → value → value → verify_run :=
    λ _ _ profile, {| done_calls := [(VNull, profile, VUndefined)];
                      raises := Some (VError "boom") |} in
  let req := Demo.callback_visit (Some "iPlanetDirectoryPro=tok123") in
  ∃ profile,
    signals (trace_of (authenticate Demo.E (Demo.with_verify careless Demo.app) req
                         Demo.no_options))
    = [Success profile VUndefined; Error (VError "boom")].
Proof. eexists. reflexivity. Qed.

Section AtMostOnce.
Variables (E : env) (self : strategy) (req : request) (options : authenticate_options).
Hypothesis behaved : well_behaved self.

Lemma signals_bind_le {A B} (m : M A) (k : A → M B) n :
  signals m.1 = [] →
  (∀ a, (length (signals (k a).1) ≤ n)%nat) →
  (length (signals (m ≫= k).1) ≤ n)%nat.
Proof.
  intros Hm Hk. destruct m as [t [e|a]]; simpl in *.
  - rewrite Hm. simpl. lia.
  - specialize (Hk a). destruct (k a) as [t' r]. simpl in *.
    by rewrite signals_app, Hm.
Qed.

Lemma call_verify_at_most_once token profile :
  (length (signals (call_verify self req token profile).1) ≤ 1)%nat
  ∧ (call_verify self req token profile).2 = inr tt.
Proof.
  destruct behaved as [Hverify _].
  destruct (Hverify req token profile) as [Hlen Hraise].
  rewrite call_verify_run, Hraise. observe.
  by rewrite signals_verdicts, length_app, length_fmap.
Qed.

Lemma profile_loaded_at_most_once token err profile :
  (length (signals (profile_loaded self req token err profile).1) ≤ 1)%nat.
Proof.
  unfold profile_loaded. destruct (truthy err); [simpl; lia|].
  apply call_verify_at_most_once.
Qed.

Lemma userProfile_at_most_once token :
  (length (signals (userProfile self token (profile_loaded self req token)).1) ≤ 1)%nat.
Proof.
  unfold userProfile. apply signals_bind_le; [done|]. intros _.
  destruct (getAttributes (_openam self) token) as [err data].
  destruct (truthy err); [simpl; lia|].
  destruct (build_profile data) as [tb [e | profile]] eqn:Hbuild.
  - destruct (build_profile_raises _ _ _ Hbuild) as (_ & -> & ->). simpl. lia.
  - pose proof (build_profile_returns _ _ _ Hbuild) as Hmapped.
    rewrite Hbuild in Hmapped. injection Hmapped as ->.
    destruct (call_verify_at_most_once token profile) as [Hlen Hret].
    unfold mbind, M_bind. cbn [profile_loaded truthy].
    destruct (call_verify self req token profile) as [t r]. simpl in *.
    by subst r.
Qed.

Lemma loadUserProfile_at_most_once token :
  (length (signals (_loadUserProfile self token (profile_loaded self req token)).1) ≤ 1)%nat.
Proof.
  pose proof (userProfile_at_most_once token) as Hload.
  pose proof (profile_loaded_at_most_once token VNull VUndefined) as Hskip.
  unfold _loadUserProfile.
  destruct (_skipUserProfile self) as [v | result | f] eqn:Hopt.
  - by destruct (truthy v).
  - apply signals_bind_le; [done|]. intros _. by destruct (truthy result).
  - apply signals_bind_le; [done|]. intros _.
    destruct behaved as [_ Hasync]. specialize (Hasync f token Hopt).
    destruct (f token) as [|[err skip] [|? ?]]; simpl in Hasync; [simpl; lia | | lia].
    simpl. rewrite bind_unit_ret.
    destruct (truthy err); [apply profile_loaded_at_most_once|].
    by destruct (truthy skip).
Qed.

(** X1. With an application that calls back at most once and raises
    nothing, [authenticate] never reaches more than one channel. *)
Lemma authenticate_signals_at_most_once :
  (length (signals (trace_of (authenticate E self req options))) ≤ 1)%nat.
Proof.
  unfold trace_of, authenticate. destruct (has_error req); [simpl; lia|].
  apply signals_bind_le.
  { destruct (qualify_callback_cases E req
                (string_or (opt_callbackUrl options) (_callbackUrl self)))
      as [-> | [-> | [v ->]]]; done. }
  intros _. destruct (has_code req); [|simpl; lia].
  destruct (headers_cookie req) as [header|]; [|simpl; lia].
  cbn zeta.
  destruct (truthy (cookie_get (parse_cookies header) (_openAmCookieName self)));
    [|simpl; lia].
  apply signals_bind_le; [done|]. intros _.
  destruct (isTokenValid _ _); [apply loadUserProfile_at_most_once|].
  destruct (callback_this _); simpl; lia.
Qed.

End AtMostOnce.

(** * Further properties of the code *)

(** ** Splitting and trimming *)

Lemma split_nonempty sep s : split sep s ≠ [].
Proof.
  destruct s as [|c s]; simpl; [done|].
  destruct (Ascii.eqb c sep); [done|]. by destruct (split sep s).
Qed.

Lemma split_without sep s : occurs sep s = false → split sep s = [s].
Proof.
  induction s as [|c s IH]; simpl; [done|].
  destruct (Ascii.eqb c sep); [done|]. simpl. intros Hs. by rewrite (IH Hs).
Qed.

(** Splitting distributes over a separator. *)
Lemma split_app sep a b :
  split sep (a +:+ String sep b) = split sep a ++ split sep b.
Proof.
  induction a as [|c a IH]; simpl.
  - by rewrite Ascii.eqb_refl.
  - destruct (Ascii.eqb c sep); [by rewrite IH|].
    rewrite IH. pose proof (split_nonempty sep a). by destruct (split sep a).
Qed.

Lemma occurs_app c a b : occurs c (a +:+ b) = occurs c a || occurs c b.
Proof.
  induction a as [|x a IH]; simpl; [done|].
  rewrite IH. by destruct (Ascii.eqb x c).
Qed.

Lemma trim_left_clean s : trim_left (trim_left s) = trim_left s.
Proof.
  induction s as [|c s IH]; simpl; [done|].
  destruct (js_space c) eqn:Hc; [done|]. simpl. by rewrite Hc.
Qed.

Lemma trim_right_clean s : trim_right (trim_right s) = trim_right s.
Proof.
  induction s as [|c s IH]; simpl; [done|].
  destruct (trim_right s) as [|d r] eqn:Hr.
  - destruct (js_space c) eqn:Hc; simpl; [done|]. by rewrite Hc.
  - simpl in *. by rewrite IH.
Qed.

Lemma trim_right_keeps_left s : trim_left s = s → trim_left (trim_right s) = trim_right s.
Proof.
  destruct s as [|c s]; simpl; [done|].
  destruct (js_space c) eqn:Hc.
  - intros Hs. exfalso.
    assert (∀ t, String.length (trim_left t) ≤ String.length t)%nat as Hlen.
    { clear. induction t as [|x t IH]; simpl; [lia|]. destruct (js_space x); simpl; lia. }
    specialize (Hlen s). rewrite Hs in Hlen. simpl in Hlen. lia.
  - intros _. destruct (trim_right s); simpl; by rewrite Hc.
Qed.

Lemma trim_idempotent s : trim (trim s) = trim s.
Proof.
  unfold trim.
  by rewrite (trim_right_keeps_left _ (trim_left_clean s)), trim_right_clean.
Qed.

(** ** The cookie dictionary (lines 113-117) *)

Lemma split_after_semicolon h1 h2 :
  split ";"%char (h1 +:+ ";" +:+ h2) = split ";"%char h1 ++ split ";"%char h2.
Proof. exact (split_app ";"%char h1 h2). Qed.

Lemma split_name_value n v :
  occurs "="%char n = false → occurs "="%char v = false →
  split "="%char (n +:+ "=" +:+ v) = [n; v].
Proof.
  intros Hn Hv. change (n +:+ "=" +:+ v) with (n +:+ String "="%char v).
  by rewrite split_app, (split_without _ _ Hn), (split_without _ _ Hv).
Qed.

(** X2. The header is read left to right: parsing [h1;h2] is going on from
    the cookies of [h1] with the pieces of [h2]. *)
Theorem parse_cookies_app h1 h2 :
  parse_cookies (h1 +:+ ";" +:+ h2) =
    foldl store_cookie (parse_cookies h1) (split ";"%char h2).
Proof. unfold parse_cookies. by rewrite split_after_semicolon, foldl_app. Qed.

(** X3. What one piece of the header stores: a piece without [=] stores an
    empty value under its trimmed text; [name=value] stores the trimmed
    value under the trimmed name; and whatever follows a second [=] is
    dropped. *)
Theorem store_cookie_piece m n v rest :
  occurs "="%char n = false →
  occurs "="%char v = false →
  store_cookie m n = cookie_set m (trim n) ""
  ∧ store_cookie m (n +:+ "=" +:+ v) = cookie_set m (trim n) (trim v)
  ∧ store_cookie m (n +:+ "=" +:+ v +:+ "=" +:+ rest) = cookie_set m (trim n) (trim v).
Proof.
  intros Hn Hv. unfold store_cookie. split_and!.
  - by rewrite (split_without _ _ Hn).
  - change (n +:+ "=" +:+ v) with (n +:+ String "="%char v).
    by rewrite split_app, (split_without _ _ Hn), (split_without _ _ Hv).
  - change (n +:+ "=" +:+ v +:+ "=" +:+ rest)
      with (n +:+ String "="%char (v +:+ String "="%char rest)).
    by rewrite !split_app, (split_without _ _ Hn), (split_without _ _ Hv).
Qed.

Lemma store_cookie_piece_witness :
  store_cookie ∅ " HttpOnly" = {[ "HttpOnly" := "" ]}
  ∧ store_cookie ∅ " iPlanetDirectoryPro = tok123 " = {[ "iPlanetDirectoryPro" := "tok123" ]}
  ∧ store_cookie ∅ "iPlanetDirectoryPro=AQIC5w=="
    = {[ "iPlanetDirectoryPro" := "AQIC5w" ]}.
Proof.
  split_and!.
  - exact (proj1 (store_cookie_piece ∅ " HttpOnly" "" "" eq_refl eq_refl)).
  - exact (proj1 (proj2 (store_cookie_piece ∅ " iPlanetDirectoryPro " " tok123 " ""
                           eq_refl eq_refl))).
  - exact (proj2 (proj2 (store_cookie_piece ∅ "iPlanetDirectoryPro" "AQIC5w" ""
                           eq_refl eq_refl))).
Defined.

Lemma cookie_set_tidy m k v : tidy m → tidy (cookie_set m (trim k) (trim v)).
Proof.
  intros Hm. unfold cookie_set.
  destruct (String.eqb (trim k) "__proto__") eqn:Hproto; [done|].
  apply String.eqb_neq in Hproto.
  intros k' v'. rewrite lookup_insert. case_decide as Hk.
  - intros [= <-]. subst k'. by rewrite !trim_idempotent.
  - apply Hm.
Qed.

Lemma foldl_store_cookie_tidy pieces m : tidy m → tidy (foldl store_cookie m pieces).
Proof.
  revert m. induction pieces as [|c pieces IH]; intros m Hm; [done|].
  simpl. apply IH. by apply cookie_set_tidy.
Qed.

(** X4. Whatever the header, the names and the values in the dictionary are
    trimmed, and no cookie is ever stored under [__proto__]. *)
Theorem parse_cookies_tidy header k v :
  parse_cookies header !! k = Some v →
  trim k = k ∧ trim v = v ∧ k ≠ "__proto__".
Proof. apply (foldl_store_cookie_tidy _ ∅). intros ??. by rewrite lookup_empty. Qed.

Lemma parse_cookies_tidy_witness :
  trim "iPlanetDirectoryPro" = "iPlanetDirectoryPro" ∧ trim "tok123" = "tok123"
  ∧ "iPlanetDirectoryPro" ≠ "__proto__".
Proof.
  exact (parse_cookies_tidy "__proto__=x;  iPlanetDirectoryPro =  tok123 ; other=y"
           "iPlanetDirectoryPro" "tok123" eq_refl).
Defined.

(** X5. A later cookie overrides an earlier one of the same name and leaves
    the others alone: after [h; name=value] the name reads [value], and
    every other name reads what it read after [h]. *)
Theorem later_cookie_wins h n v k :
  occurs ";"%char n = false → occurs "="%char n = false →
  occurs ";"%char v = false → occurs "="%char v = false →
  trim n ≠ "__proto__" →
  cookie_get (parse_cookies (h +:+ ";" +:+ n +:+ "=" +:+ v)) k =
    if decide (k = trim n) then VStr (trim v) else cookie_get (parse_cookies h) k.
Proof.
  intros Hn1 Hn2 Hv1 Hv2 Hproto.
  unfold parse_cookies at 1.
  rewrite split_after_semicolon, foldl_app, (split_without _ (n +:+ "=" +:+ v)).
  2:{ change (n +:+ "=" +:+ v) with (n +:+ String "="%char v).
      rewrite occurs_app. simpl. by rewrite Hn1, Hv1. }
  fold (parse_cookies h). simpl. unfold store_cookie.
  rewrite (split_name_value _ _ Hn2 Hv2). simpl.
  unfold cookie_set, cookie_get.
  apply String.eqb_neq in Hproto. rewrite Hproto, lookup_insert.
  repeat case_decide; congruence.
Qed.

Lemma later_cookie_wins_witness :
  cookie_get (parse_cookies "iPlanetDirectoryPro=old; lang=en; iPlanetDirectoryPro=new")
    "iPlanetDirectoryPro" = VStr "new"
  ∧ cookie_get (parse_cookies "iPlanetDirectoryPro=old; lang=en; iPlanetDirectoryPro=new")
      "lang" = VStr "en".
Proof.
  split.
  - exact (later_cookie_wins "iPlanetDirectoryPro=old; lang=en" " iPlanetDirectoryPro" "new"
             "iPlanetDirectoryPro" eq_refl eq_refl eq_refl eq_refl
             ltac:(discriminate)).
  - exact (later_cookie_wins "iPlanetDirectoryPro=old; lang=en" " iPlanetDirectoryPro" "new"
             "lang" eq_refl eq_refl eq_refl eq_refl ltac:(discriminate)).
Defined.

(** ** Observers, one event at a time *)

Lemma validator_calls_cons ev t :
  validator_calls (ev :: t) =
    match ev with
    | CallIsTokenValid token => token :: validator_calls t
    | _ => validator_calls t
    end.
Proof. by destruct ev. Qed.

Lemma attribute_fetches_cons ev t :
  attribute_fetches (ev :: t) =
    match ev with
    | CallGetAttributes token => token :: attribute_fetches t
    | _ => attribute_fetches t
    end.
Proof. by destruct ev. Qed.

Lemma verify_calls_cons ev t :
  verify_calls (ev :: t) =
    match ev with
    | CallVerify r token p => (r, token, p) :: verify_calls t
    | _ => verify_calls t
    end.
Proof. by destruct ev. Qed.

Lemma signals_cons ev t :
  signals (ev :: t) =
    match ev with
    | Signal o => o :: signals t
    | _ => signals t
    end.
Proof. by destruct ev. Qed.

Lemma validator_calls_app t1 t2 :
  validator_calls (t1 ++ t2) = validator_calls t1 ++ validator_calls t2.
Proof. apply omap_app. Qed.

(** ** What follows the validator's answer *)

Section AfterValidation.
Variables (self : strategy) (req : request) (token : value).

Local Abbreviation permitted := (Forall (after_validation self req token)).

Lemma permitted_bind {A B} (m : M A) (k : A → M B) :
  permitted m.1 → (∀ a, permitted (k a).1) → permitted (m ≫= k).1.
Proof.
  intros Hm Hk. destruct m as [t [e|a]]; simpl in *; [done|].
  specialize (Hk a). destruct (k a) as [t' r]. simpl in *.
  by apply Forall_app.
Qed.

Lemma permitted_try_catch {A} (m : M A) (h : value → M A) :
  permitted m.1 → (∀ e, permitted (h e).1) → permitted (try_catch m h).1.
Proof.
  intros Hm Hh. destruct m as [t [e|a]]; simpl in *; [|done].
  specialize (Hh e). destruct (h e) as [t' r]. simpl in *.
  by apply Forall_app.
Qed.

Lemma permitted_for_each {A} (f : A → M unit) (l : list A) :
  (∀ x, permitted (f x).1) → permitted (for_each f l).1.
Proof.
  intros Hf. induction l as [|x l IH]; simpl; [done|].
  apply permitted_bind; [apply Hf|]. by intros _.
Qed.

Lemma permitted_call_verify profile : permitted (call_verify self req token profile).1.
Proof.
  rewrite call_verify_run. cbn [fst]. constructor; [done|].
  apply Forall_fmap, Forall_forall. intros [[err user] info] Hin. simpl.
  unfold verdict. destruct (truthy err) eqn:He; [done|].
  destruct (truthy user) eqn:Hu; simpl; eauto 10.
Qed.

Lemma permitted_profile_loaded err profile :
  permitted (profile_loaded self req token err profile).1.
Proof.
  unfold profile_loaded. destruct (truthy err); [by repeat constructor|].
  apply permitted_call_verify.
Qed.

Lemma permitted_build_profile data : (build_profile data).1 = [].
Proof.
  destruct (build_profile data) as [t [e|p]] eqn:Hb.
  - by destruct (build_profile_raises _ _ _ Hb) as (_ & -> & _).
  - pose proof (build_profile_returns _ _ _ Hb) as Hr. rewrite Hb in Hr. by injection Hr.
Qed.

Lemma permitted_userProfile :
  permitted (userProfile self token (profile_loaded self req token)).1.
Proof.
  unfold userProfile. apply permitted_bind; [by repeat constructor|]. intros _.
  destruct (getAttributes (_openam self) token) as [err data].
  destruct (truthy err); [apply permitted_profile_loaded|].
  apply permitted_try_catch; [|intros e; apply permitted_profile_loaded].
  apply permitted_bind; [by rewrite permitted_build_profile|].
  intros profile. apply permitted_profile_loaded.
Qed.

Lemma permitted_loadUserProfile :
  permitted (_loadUserProfile self token (profile_loaded self req token)).1.
Proof.
  unfold _loadUserProfile.
  destruct (_skipUserProfile self) as [v | result | f].
  - destruct (truthy v); simpl;
      [apply permitted_profile_loaded | apply permitted_userProfile].
  - apply permitted_bind; [by repeat constructor|]. intros _.
    destruct (truthy result); simpl;
      [apply permitted_profile_loaded | apply permitted_userProfile].
  - apply permitted_bind; [by repeat constructor|]. intros _.
    apply permitted_for_each. intros [err skip].
    destruct (truthy err); [apply permitted_profile_loaded|].
    destruct (truthy skip); simpl;
      [apply permitted_profile_loaded | apply permitted_userProfile].
Qed.

(** What a permitted trace shows to the observers. *)
Lemma permitted_observed t :
  permitted t →
  validator_calls t = []
  ∧ (∀ tok, tok ∈ attribute_fetches t → tok = token)
  ∧ (∀ r tok p, (r, tok, p) ∈ verify_calls t → r = req ∧ tok = token)
  ∧ (∀ o, o ∈ signals t → after_validation self req token (Signal o)).
Proof.
  induction 1 as [|ev t Hev _ (IHv & IHf & IHc & IHs)].
  { split_and!; [done|..]; intros *; by rewrite elem_of_nil. }
  rewrite validator_calls_cons, attribute_fetches_cons, verify_calls_cons, signals_cons.
  destruct ev as [| | | tok | r tok p | o]; simpl in Hev; try done;
    (split_and!; [done|..]); try done; intros *; rewrite elem_of_cons;
    intros [Heq|Hin]; simplify_eq; eauto.
Qed.

End AfterValidation.

(** ** Every trace of [authenticate] *)

Section Shape.
Variables (E : env) (self : strategy) (req : request) (options : authenticate_options).

Local Abbreviation t := (trace_of (authenticate E self req options)).

(** The trace of [authenticate], case by case. [tq] is what line 109 leaves:
    nothing, or the write to the global. *)
Lemma authenticate_shape :
  (has_error req = true ∧ t = [Signal (Fail VUndefined)])
  ∨ (has_error req = false
     ∧ ∃ tq, (tq = [] ∨ ∃ v, tq = [SetGlobal "callbackURL" v])
       ∧ (t = tq
          ∨ (has_code req = false ∧ t = tq ++ [Signal (Redirect (login_location self options))])
          ∨ ∃ token tl,
              session_token self req = Some token
              ∧ t = tq ++ CallIsTokenValid token :: tl
              ∧ ((isTokenValid (_openam self) token = false
                  ∧ (tl = [] ∨ tl = [Signal (Redirect (login_location self options))]))
                 ∨ (isTokenValid (_openam self) token = true
                    ∧ Forall (after_validation self req token) tl)))).
Proof.
  destruct (has_error req) eqn:Herr.
  { left. split; [done|]. unfold trace_of, authenticate. by rewrite Herr. }
  right. split; [done|].
  rewrite (authenticate_no_error _ _ _ _ Herr). unfold session_token. rewrite Herr.
  assert (∃ tq r, qualify_callback E req (effective_callback self options) = (tq, r)
                  ∧ (tq = [] ∨ ∃ v, tq = [SetGlobal "callbackURL" v])
                  ∧ (r = inr tt ∨ (tq = [] ∧ ∃ e, r = inl e))) as (tq & r & -> & Htq & Hr).
  { destruct (qualify_callback_cases E req (effective_callback self options))
      as [-> | [-> | [v ->]]]; eauto 10. }
  exists tq. split; [done|].
  destruct Hr as [-> | [-> [e ->]]]; [|by left].
  rewrite (bind_returned _ _ tq tt eq_refl). unfold trace_of. cbn [fst].
  destruct (has_code req); [|right; left; done].
  destruct (headers_cookie req) as [header|]; [|left; simpl; by rewrite app_nil_r].
  cbn zeta.
  destruct (truthy (cookie_get (parse_cookies header) (_openAmCookieName self)));
    [|left; simpl; by rewrite app_nil_r].
  right; right. eexists _, _. split; [done|].
  rewrite bind_emit. cbn [fst]. split; [done|].
  destruct (isTokenValid _ _).
  - right. split; [done|]. apply permitted_loadUserProfile.
  - left. split; [done|]. destruct (callback_this _); simpl; auto.
Qed.

Lemma line_109_quiet tq :
  (tq = [] ∨ ∃ v, tq = [SetGlobal "callbackURL" v]) →
  signals tq = [] ∧ attribute_fetches tq = [] ∧ verify_calls tq = []
  ∧ validator_calls tq = [].
Proof. by intros [-> | [v ->]]. Qed.

(** The cases of [authenticate_shape], with the trace rewritten and what
    line 109 left observed away. *)
Ltac by_shape :=
  destruct authenticate_shape
    as [[He Ht] | (He & tq & Htq & [Ht | [[Hc Ht] | (token & tl & Hst & Ht
          & [[Hv [-> | ->]] | [Hv Hperm]])]])];
  rewrite Ht;
  rewrite ?signals_app, ?attribute_fetches_app, ?verify_calls_app, ?validator_calls_app,
    ?signals_cons, ?attribute_fetches_cons, ?verify_calls_cons, ?validator_calls_cons;
  try (destruct (line_109_quiet _ Htq) as (Hqs & Hqf & Hqv & Hqi);
       rewrite ?Hqs, ?Hqf, ?Hqv, ?Hqi);
  change (signals []) with (@nil outcome);
  change (attribute_fetches []) with (@nil value);
  change (verify_calls []) with (@nil (request * value * value));
  change (validator_calls []) with (@nil value);
  cbn [app];
  try (destruct (permitted_observed _ _ _ _ Hperm) as (Hpi & Hpf & Hpv & Hps)).

(** X6. [getAttributes] and [verify] are reached only for the token read
    from this request's session cookie, and only after the validator has
    accepted that token. *)
Theorem fetch_and_verify_follow_validation :
  (∀ tok, tok ∈ attribute_fetches t →
     session_token self req = Some tok ∧ isTokenValid (_openam self) tok = true)
  ∧ (∀ r tok p, (r, tok, p) ∈ verify_calls t →
       r = req ∧ session_token self req = Some tok
       ∧ isTokenValid (_openam self) tok = true).
Proof.
  split; intros *; by_shape; try (by rewrite elem_of_nil).
  - intros Hin. by rewrite (Hpf _ Hin).
  - intros Hin. by destruct (Hpv _ _ _ Hin) as [-> ->].
Qed.

(** X7. The validator is asked at most once for a request, and then about
    the token of the session cookie. *)
Theorem validator_asked_at_most_once :
  validator_calls t = []
  ∨ ∃ tok, session_token self req = Some tok ∧ validator_calls t = [tok].
Proof.
  by_shape; try (by left); right; exists token; split; try done.
  by rewrite Hpi.
Qed.

(** X8. [success] is signalled only with a truthy user that the
    application's [verify] handed to its continuation, without an error, for
    this request and a token the validator accepted. *)
Theorem success_is_vouched user info :
  Success user info ∈ signals t →
  truthy user = true
  ∧ ∃ tok profile err,
      session_token self req = Some tok
      ∧ isTokenValid (_openam self) tok = true
      ∧ (err, user, info) ∈ done_calls (_verify self req tok profile)
      ∧ truthy err = false.
Proof.
  by_shape; try (by rewrite elem_of_nil);
    try (rewrite list_elem_of_singleton; intros ?; by simplify_eq).
  intros Hin. destruct (Hps _ Hin) as (Hu & profile & err & Hcall & Herr).
  split; [done|]. by exists token, profile, err.
Qed.

(** X9. [authenticate] redirects nowhere but to the login page of the
    provider, with [goto] made of this request's callback URL; the redirect
    is then the only outcome, and neither [getAttributes] nor [verify] has
    been called. *)
Theorem redirect_goes_to_login location :
  Redirect location ∈ signals t →
  location = login_location self options
  ∧ signals t = [Redirect location]
  ∧ attribute_fetches t = [] ∧ verify_calls t = [].
Proof.
  by_shape; try (by rewrite elem_of_nil);
    try (rewrite list_elem_of_singleton; intros ?; by simplify_eq).
  intros Hin. by destruct (Hps _ Hin).
Qed.

(** X10. Where [fail] and [error] come from: [fail] is the answer to a
    provider error, without details, or what [verify] decided by handing
    over a falsy user; [error] is signalled only past an accepted token. *)
Theorem fail_and_error_origins :
  (∀ info, Fail info ∈ signals t →
     (has_error req = true ∧ info = VUndefined)
     ∨ ∃ tok profile err user,
         session_token self req = Some tok
         ∧ isTokenValid (_openam self) tok = true
         ∧ (err, user, info) ∈ done_calls (_verify self req tok profile)
         ∧ truthy err = false ∧ truthy user = false)
  ∧ (∀ cause, Error cause ∈ signals t →
       ∃ tok, session_token self req = Some tok
              ∧ isTokenValid (_openam self) tok = true).
Proof.
  split; intros *; by_shape; try (by rewrite elem_of_nil);
    try (rewrite list_elem_of_singleton; intros ?; by simplify_eq).
  - rewrite list_elem_of_singleton. intros [= ->]. by left.
  - intros Hin. destruct (Hps _ Hin) as (profile & err & user & Hcall & Herr & Hu).
    right. by exists token, profile, err, user.
  - intros _. by exists token.
Qed.

End Shape.

Lemma fetch_and_verify_follow_validation_witness :
  let req := Demo.callback_visit (Some "iPlanetDirectoryPro=tok123; other=x") in
  session_token Demo.app req = Some (VStr "tok123")
  ∧ isTokenValid (_openam Demo.app) (VStr "tok123") = true.
Proof.
  apply (proj1 (fetch_and_verify_follow_validation Demo.E Demo.app
                  (Demo.callback_visit (Some "iPlanetDirectoryPro=tok123; other=x"))
                  Demo.no_options) (VStr "tok123")).
  vm_compute. by left.
Defined.

Lemma success_is_vouched_witness :
  let req := Demo.callback_visit (Some "iPlanetDirectoryPro=tok123; other=x") in
  truthy Demo.bob_profile = true
  ∧ ∃ tok profile err,
      session_token Demo.app req = Some tok
      ∧ isTokenValid (_openam Demo.app) tok = true
      ∧ (err, Demo.bob_profile, VUndefined) ∈ done_calls (_verify Demo.app req tok profile)
      ∧ truthy err = false.
Proof.
  apply (success_is_vouched Demo.E Demo.app
           (Demo.callback_visit (Some "iPlanetDirectoryPro=tok123; other=x"))
           Demo.no_options).
  vm_compute. by left.
Defined.

Lemma redirect_goes_to_login_witness :
  let location :=
    "http://sso.example.net/openam/UI/Login?goto=http%3A%2F%2Fapp.example.net%3A3000%2Fauth%2Fopenam%2Fcallback%3Fcode%3Dtrue" in
  location = login_location Demo.app Demo.no_options
  ∧ signals (trace_of (authenticate Demo.E Demo.app Demo.first_visit Demo.no_options))
    = [Redirect location]
  ∧ attribute_fetches (trace_of (authenticate Demo.E Demo.app Demo.first_visit
                                   Demo.no_options)) = []
  ∧ verify_calls (trace_of (authenticate Demo.E Demo.app Demo.first_visit
                              Demo.no_options)) = [].
Proof.
  apply (redirect_goes_to_login Demo.E Demo.app Demo.first_visit Demo.no_options).
  vm_compute. by left.
Defined.

Lemma fail_and_error_origins_witness :
  (has_error Demo.refused_visit = true ∧ VUndefined = VUndefined)
  ∨ ∃ tok profile err user,
      session_token Demo.app Demo.refused_visit = Some tok
      ∧ isTokenValid (_openam Demo.app) tok = true
      ∧ (err, user, VUndefined) ∈ done_calls (_verify Demo.app Demo.refused_visit tok profile)
      ∧ truthy err = false ∧ truthy user = false.
Proof.
  apply (proj1 (fail_and_error_origins Demo.E Demo.app Demo.refused_visit Demo.no_options)
           VUndefined).
  vm_compute. by left.
Defined.

(** ** A cookie named like a member of [Object.prototype] *)

(** X11. When the session cookie is configured under the name of a member
    of [Object.prototype] ([constructor], [toString], ...), a request with
    [code] whose header has no such cookie still has a session token: the
    inherited member. The validator is asked about it. *)
Theorem prototype_name_always_has_token E self req options header :
  _openAmCookieName self ∈ object_prototype_keys →
  has_error req = false →
  has_code req = true →
  headers_cookie req = Some header →
  parse_cookies header !! _openAmCookieName self = None →
  session_token self req = Some (VBuiltin (_openAmCookieName self))
  ∧ (thrown (qualify_callback E req (effective_callback self options)) = None →
     validator_calls (trace_of (authenticate E self req options))
     = [VBuiltin (_openAmCookieName self)]).
Proof.
  intros Hname Herr Hcode Hheader Hnone.
  assert (cookie_get (parse_cookies header) (_openAmCookieName self)
          = VBuiltin (_openAmCookieName self)) as Htoken.
  { unfold cookie_get. by rewrite Hnone, bool_decide_eq_true_2. }
  split.
  { unfold session_token. by rewrite Herr, Hcode, Hheader, Htoken. }
  intros Hpass.
  destruct (qualify_callback_passes _ _ _ Hpass) as (tq & Hq & _).
  assert (validator_calls tq = []) as Hquiet.
  { destruct (qualify_callback_cases E req (effective_callback self options))
      as [Hc | [Hc | [v Hc]]]; rewrite Hc in Hq; by injection Hq as <-. }
  rewrite (authenticate_no_error _ _ _ _ Herr), Hcode, Hheader. cbn zeta.
  rewrite Htoken. cbn [truthy].
  rewrite (bind_returned _ _ _ _ Hq), bind_emit. unfold trace_of. cbn [fst].
  rewrite validator_calls_app, validator_calls_cons, Hquiet. simpl. f_equal.
  destruct (isTokenValid _ _).
  - by destruct (permitted_observed _ _ _ _
                   (permitted_loadUserProfile self req (VBuiltin (_openAmCookieName self)))).
  - by destruct (callback_this _).
Qed.

Lemma prototype_name_always_has_token_witness :
  validator_calls (trace_of (authenticate Demo.E (demo_with_cookieName "constructor")
                               (Demo.callback_visit (Some "lang=en")) Demo.no_options))
  = [VBuiltin "constructor"].
Proof.
  refine (proj2 (prototype_name_always_has_token Demo.E (demo_with_cookieName "constructor")
                   (Demo.callback_visit (Some "lang=en")) Demo.no_options "lang=en"
                   _ eq_refl eq_refl eq_refl eq_refl) eq_refl).
  vm_compute. by left.
Defined.

(** ** The constructor *)

(** X12. Construction succeeds exactly when both [openAmBaseUrl] and
    [callbackUrl] are given and not empty; when it fails, a missing base URL
    is the one reported, whatever the callback URL. *)
Theorem OpenAmStrategy_fails_fast OpenAm options verify :
  ((∃ s, OpenAmStrategy OpenAm options verify = inr s)
   ↔ absent (openAmBaseUrl options) = false ∧ absent (callbackUrl options) = false)
  ∧ (absent (openAmBaseUrl options) = true →
     OpenAmStrategy OpenAm options verify
     = inl (VError "OpenAmStrategy requires a openAmBaseUrl option"))
  ∧ (absent (openAmBaseUrl options) = false → absent (callbackUrl options) = true →
     OpenAmStrategy OpenAm options verify
     = inl (VError "OpenAmStrategy requires a callbackUrl option")).
Proof.
  unfold OpenAmStrategy.
  destruct (absent (openAmBaseUrl options)), (absent (callbackUrl options));
    split_and!; try done; split; try (by intros [s ?]); try (by intros [? ?]).
  intros _. by eexists.
Qed.

Lemma OpenAmStrategy_fails_fast_witness :
  OpenAmStrategy (λ _ _ _, Demo.client)
    {| openAmBaseUrl := Some ""; callbackUrl := None; openAmRealm := None;
       openAmCookieName := None; skipUserProfile := None; openAmLoginPage := None |}
    Demo.accept
  = inl (VError "OpenAmStrategy requires a openAmBaseUrl option").
Proof.
  exact (proj1 (proj2 (OpenAmStrategy_fails_fast (λ _ _ _, Demo.client)
           {| openAmBaseUrl := Some ""; callbackUrl := None; openAmRealm := None;
              openAmCookieName := None; skipUserProfile := None;
              openAmLoginPage := None |} Demo.accept)) eq_refl).
Defined.

(** X13. What holds of every constructed strategy: the client was made for
    the realm and the cookie name the strategy keeps; absent options take the
    defaults [/], [iPlanetDirectoryPro], [false] and [true]; and the callback
    URL of a request is never empty, so that the test of line 104 always
    passes and a callback URL is relative exactly when [url.parse] finds no
    protocol. *)
Theorem OpenAmStrategy_constructed OpenAm options verify s :
  OpenAmStrategy OpenAm options verify = inr s →
  (∃ base, openAmBaseUrl options = Some base
           ∧ _openam s = OpenAm base (_openAmRealm s) (_openAmCookieName s))
  ∧ (openAmRealm options = None → _openAmRealm s = "/")
  ∧ (openAmCookieName options = None → _openAmCookieName s = "iPlanetDirectoryPro")
  ∧ (skipUserProfile options = None → _skipUserProfile s = SkipValue (VBool false))
  ∧ (openAmLoginPage options = None → _openAmLoginPage s = true)
  ∧ (∀ E opts, effective_callback s opts ≠ ""
               ∧ relative E (effective_callback s opts)
                 = absent (url_parse_protocol E (effective_callback s opts))).
Proof.
  unfold OpenAmStrategy.
  destruct (openAmBaseUrl options) as [base|] eqn:Hbase; [|done]. simpl.
  destruct (String.eqb base ""); [done|].
  destruct (callbackUrl options) as [cb|] eqn:Hcb; [|done]. simpl.
  destruct (String.eqb cb "") eqn:Hne; [done|].
  intros [= <-]. simpl. split_and!; try (by intros ->); [by exists base|].
  intros E opts.
  assert (effective_callback
            {| name := "openam"; _verify := verify;
               _openAmRealm := default "/" (openAmRealm options);
               _openAmCookieName := default "iPlanetDirectoryPro" (openAmCookieName options);
               _openam := OpenAm base (default "/" (openAmRealm options))
                            (default "iPlanetDirectoryPro" (openAmCookieName options));
               _callbackUrl := cb;
               _skipUserProfile := default (SkipValue (VBool false)) (skipUserProfile options);
               _openAmLoginPage := default true (openAmLoginPage options) |} opts ≠ "") as Hu.
  { unfold effective_callback, string_or. simpl.
    destruct (opt_callbackUrl opts) as [o|]; [destruct (String.eqb o "") eqn:Ho|];
      by apply String.eqb_neq. }
  split; [done|]. unfold relative. apply String.eqb_neq in Hu. by rewrite Hu.
Qed.

Lemma OpenAmStrategy_constructed_witness :
  _openAmRealm Demo.app = "/" ∧ _openAmCookieName Demo.app = "iPlanetDirectoryPro"
  ∧ effective_callback Demo.app Demo.no_options ≠ "".
Proof.
  destruct (OpenAmStrategy_constructed (λ _ _ _, Demo.client) Demo.options Demo.accept
              Demo.app eq_refl) as (_ & Hrealm & Hcookie & _ & _ & Hcallback).
  split_and!; [by apply Hrealm | by apply Hcookie |].
  apply (Hcallback Demo.E Demo.no_options).
Defined.

(** ** At most one outcome *)

Lemma authenticate_signals_at_most_once_witness :
  well_behaved Demo.app
  ∧ (length (signals (trace_of (authenticate Demo.E Demo.app
                                  (Demo.callback_visit (Some "iPlanetDirectoryPro=tok123"))
                                  Demo.no_options))) ≤ 1)%nat.
Proof.
  assert (well_behaved Demo.app) as Hbehaved.
  { split; [intros; split; [simpl; lia | reflexivity] | discriminate]. }
  split; [exact Hbehaved|].
  exact (authenticate_signals_at_most_once Demo.E Demo.app
           (Demo.callback_visit (Some "iPlanetDirectoryPro=tok123")) Demo.no_options
           Hbehaved).
Defined.

(** ** Callbacks that report never, twice, or by raising *)

Section Reports.
Variables (E : env) (self : strategy) (req : request) (options : authenticate_options).
Variable header : string.

Local Abbreviation token := (cookie_get (parse_cookies header) (_openAmCookieName self)).
Local Abbreviation a := (authenticate E self req options).

Hypothesis no_error : has_error req = false.
Hypothesis code : has_code req = true.
Hypothesis cookie_header : headers_cookie req = Some header.
Hypothesis token_present : truthy token = true.
Hypothesis token_valid : isTokenValid (_openam self) token = true.
Hypothesis callback_passed :
  thrown (qualify_callback E req (effective_callback self options)) = None.

Lemma authenticate_accepted :
  ∃ tq, signals tq = [] ∧ attribute_fetches tq = [] ∧ verify_calls tq = []
        ∧ a = let rest := _loadUserProfile self token (profile_loaded self req token) in
              (tq ++ CallIsTokenValid token :: rest.1, rest.2).
Proof.
  exact (authenticate_valid_token E self req options no_error code header cookie_header
           token_present token_valid callback_passed).
Qed.

(** X15. An asynchronous skip function that never calls back leaves the
    request without any outcome: nothing is fetched, [verify] is not called,
    nothing is signalled and nothing is raised. *)
Theorem silent_skip_function_stalls f :
  _skipUserProfile self = SkipAsync f →
  f token = [] →
  signals (trace_of a) = [] ∧ attribute_fetches (trace_of a) = []
  ∧ verify_calls (trace_of a) = [] ∧ thrown a = None.
Proof.
  intros Hopt Hnone.
  destruct authenticate_accepted as (tq & Hs & Hf & Hv & ->).
  unfold _loadUserProfile. rewrite Hopt, Hnone. simpl. observe.
  by rewrite Hs, Hf, Hv.
Qed.

Section Once.
(** [verify] calls its continuation once and returns. *)
Hypothesis verify_once :
  ∀ profile, ∃ call, _verify self req token profile
                     = {| done_calls := [call]; raises := None |}.

Lemma profile_loaded_once err profile :
  ∃ t, profile_loaded self req token err profile = (t, inr tt)
       ∧ length (signals t) = 1%nat ∧ attribute_fetches t = [].
Proof.
  unfold profile_loaded. destruct (truthy err); [by eexists|].
  rewrite call_verify_run. destruct (verify_once profile) as [[[e u] i] ->].
  by eexists.
Qed.

Lemma userProfile_once :
  ∃ t, userProfile self token (profile_loaded self req token) = (t, inr tt)
       ∧ length (signals t) = 1%nat ∧ attribute_fetches t = [token].
Proof.
  unfold userProfile. rewrite bind_emit.
  destruct (getAttributes (_openam self) token) as [err data].
  assert (∃ t, (if truthy err
                then profile_loaded self req token
                       (InternalOpenAmError "failed to get attributes" err) VUndefined
                else try_catch (profile ← build_profile data;
                                profile_loaded self req token VNull profile)
                       (λ e, profile_loaded self req token e VUndefined)) = (t, inr tt)
               ∧ length (signals t) = 1%nat ∧ attribute_fetches t = [])
    as (t & -> & Hs & Hf).
  { destruct (truthy err); [apply profile_loaded_once|].
    destruct (build_profile data) as [tb [e | profile]] eqn:Hbuild.
    - destruct (build_profile_raises _ _ _ Hbuild) as (_ & -> & ->). by eexists.
    - pose proof (build_profile_returns _ _ _ Hbuild) as Hret.
      rewrite Hbuild in Hret. injection Hret as ->.
      destruct (profile_loaded_once VNull profile) as (t & Ht & Hs & Hf).
      exists t. unfold mbind, M_bind. rewrite Ht. by simpl. }
  eexists. split; [done|]. cbn [fst].
  by rewrite signals_cons, attribute_fetches_cons, Hf.
Qed.

(** X16. Every report of an asynchronous skip function is acted upon: with
    a [verify] that calls back once, there are as many outcomes as reports,
    and the attributes are fetched once for each report that neither fails
    nor skips. *)
Theorem each_report_is_acted_upon f :
  _skipUserProfile self = SkipAsync f →
  length (signals (trace_of a)) = length (f token)
  ∧ attribute_fetches (trace_of a)
    = replicate (length (List.filter asks_for_profile (f token))) token
  ∧ thrown a = None.
Proof.
  intros Hopt.
  destruct authenticate_accepted as (tq & Hs & Hf & Hv & ->).
  unfold _loadUserProfile. rewrite Hopt, bind_emit.
  assert (∀ reports, ∃ t,
            for_each (λ '(err, skip),
                        if truthy err then profile_loaded self req token err VUndefined
                        else if negb (truthy skip)
                             then userProfile self token (profile_loaded self req token)
                             else profile_loaded self req token VNull VUndefined) reports
            = (t, inr tt)
            ∧ length (signals t) = length reports
            ∧ attribute_fetches t
              = replicate (length (List.filter asks_for_profile reports)) token)
    as Hall.
  { induction reports as [|[err skip] reports (t & IH & IHs & IHf)]; [by eexists|].
    assert (∃ t1, (if truthy err then profile_loaded self req token err VUndefined
                   else if negb (truthy skip)
                        then userProfile self token (profile_loaded self req token)
                        else profile_loaded self req token VNull VUndefined) = (t1, inr tt)
                  ∧ length (signals t1) = 1%nat
                  ∧ attribute_fetches t1
                    = if asks_for_profile (err, skip) then [token] else [])
      as (t1 & Ht1 & Hs1 & Hf1).
    { unfold asks_for_profile. simpl.
      destruct (truthy err); [apply profile_loaded_once|].
      destruct (truthy skip); [apply profile_loaded_once | apply userProfile_once]. }
    exists (t1 ++ t). simpl. rewrite Ht1. unfold mbind, M_bind. rewrite IH.
    split; [done|]. rewrite signals_app, attribute_fetches_app, length_app, Hs1, IHs, Hf1, IHf.
    split; [done|]. by destruct (asks_for_profile (err, skip)). }
  destruct (Hall (f token)) as (t & -> & Hts & Htf).
  unfold trace_of, thrown. cbn [fst snd].
  rewrite signals_app, attribute_fetches_app, Hs, Hf, signals_cons, attribute_fetches_cons,
    signals_cons, attribute_fetches_cons.
  simpl. by rewrite Hts, Htf.
Qed.

End Once.
Lemma authenticate_resolved sk :
  skip_resolves (_skipUserProfile self) token = Some sk →
  ∃ tq, signals tq = [] ∧ attribute_fetches tq = [] ∧ verify_calls tq = []
        ∧ a = let body := if sk then call_verify self req token VUndefined
                          else userProfile self token (profile_loaded self req token) in
              (tq ++ body.1, body.2).
Proof.
  exact (authenticate_session E self req options no_error code header cookie_header
           token_present token_valid callback_passed sk).
Qed.

(** X17. What becomes of an exception raised by [verify]. When the profile
    was fetched, [verify] runs inside the [try] block of [userProfile]: the
    exception is caught and signalled as an error, after whatever [verify]
    had already said through its continuation. When the profile was
    skipped, the exception is caught by nobody. *)
Theorem raising_verify sk profile e :
  skip_resolves (_skipUserProfile self) token = Some sk →
  (if sk then profile = VUndefined
   else ∃ e0 data, getAttributes (_openam self) token = (e0, data)
                   ∧ truthy e0 = false
                   ∧ build_profile data = mret profile) →
  raises (_verify self req token profile) = Some e →
  let said := (λ '(err, user, info), verdict err user info)
                <$> done_calls (_verify self req token profile) in
  if sk then signals (trace_of a) = said ∧ thrown a = Some e
  else truthy e = true → signals (trace_of a) = said ++ [Error e] ∧ thrown a = None.
Proof.
  intros Hskip Hprofile Hraise said.
  destruct (authenticate_resolved _ Hskip) as (tq & Hs & _ & _ & ->).
  destruct sk.
  - subst profile. rewrite call_verify_run, Hraise. observe.
    by rewrite Hs, signals_verdicts.
  - intros He. destruct Hprofile as (e0 & data & Hget & He0 & Hbuild).
    rewrite (userProfile_verified _ _ _ _ _ _ Hget He0 Hbuild);
      [|by unfold raises_truthy; rewrite Hraise].
    rewrite Hraise. observe. by rewrite Hs, signals_verdicts.
Qed.

(** X18. A [verify] that raises a falsy value ([throw null], [throw 0])
    after the profile was fetched is called a second time: line 200 passes
    the value to [done], which takes it for no error and goes on to [verify]
    with no profile. *)
Theorem falsy_raise_repeats_verify profile e e0 data :
  skip_resolves (_skipUserProfile self) token = Some false →
  getAttributes (_openam self) token = (e0, data) →
  truthy e0 = false →
  build_profile data = mret profile →
  raises (_verify self req token profile) = Some e →
  truthy e = false →
  verify_calls (trace_of a) = [(req, token, profile); (req, token, VUndefined)].
Proof.
  intros Hskip Hget He0 Hbuild Hraise He.
  destruct (authenticate_resolved _ Hskip) as (tq & _ & _ & Hv & ->).
  cbn zeta. unfold userProfile.
  rewrite Hget, He0, Hbuild, bind_ret, bind_emit. cbn [profile_loaded truthy].
  rewrite call_verify_run, Hraise. cbn [try_catch]. unfold profile_loaded.
  rewrite He, call_verify_run. unfold trace_of. cbn [fst].
  rewrite verify_calls_app, Hv, verify_calls_cons, verify_calls_app, !verify_calls_cons,
    !verdicts_verify_nothing.
  reflexivity.
Qed.

End Reports.

Lemma silent_skip_function_stalls_witness :
  let a := authenticate Demo.E (demo_reporting [])
             (Demo.callback_visit (Some "iPlanetDirectoryPro=tok123")) Demo.no_options in
  signals (trace_of a) = [] ∧ attribute_fetches (trace_of a) = []
  ∧ verify_calls (trace_of a) = [] ∧ thrown a = None.
Proof.
  exact (silent_skip_function_stalls Demo.E (demo_reporting [])
           (Demo.callback_visit (Some "iPlanetDirectoryPro=tok123")) Demo.no_options
           "iPlanetDirectoryPro=tok123" eq_refl eq_refl eq_refl eq_refl eq_refl eq_refl
           (λ _, []) eq_refl eq_refl).
Defined.

Lemma each_report_is_acted_upon_witness :
  let twice := [(VNull, VBool false); (VNull, VBool true); (VNull, VUndefined)] in
  let a := authenticate Demo.E (demo_reporting twice)
             (Demo.callback_visit (Some "iPlanetDirectoryPro=tok123")) Demo.no_options in
  length (signals (trace_of a)) = 3%nat
  ∧ attribute_fetches (trace_of a) = [VStr "tok123"; VStr "tok123"]
  ∧ thrown a = None.
Proof.
  exact (each_report_is_acted_upon Demo.E
           (demo_reporting [(VNull, VBool false); (VNull, VBool true); (VNull, VUndefined)])
           (Demo.callback_visit (Some "iPlanetDirectoryPro=tok123")) Demo.no_options
           "iPlanetDirectoryPro=tok123" eq_refl eq_refl eq_refl eq_refl eq_refl eq_refl
           (λ profile, ex_intro _ (VNull, profile, VUndefined) eq_refl)
           (λ _, [(VNull, VBool false); (VNull, VBool true); (VNull, VUndefined)]) eq_refl).
Defined.

Lemma raising_verify_witness :
  let req := Demo.callback_visit (Some "iPlanetDirectoryPro=tok123") in
  let boom := VError "boom" in
  (signals (trace_of (authenticate Demo.E (demo_raising boom) req Demo.no_options))
   = [Success Demo.bob_profile VUndefined; Error boom]
   ∧ thrown (authenticate Demo.E (demo_raising boom) req Demo.no_options) = None)
  ∧ (signals (trace_of (authenticate Demo.E
                          (Demo.with_skipUserProfile (SkipValue (VBool true))
                             (demo_raising boom)) req Demo.no_options))
     = [Fail VUndefined]
     ∧ thrown (authenticate Demo.E
                 (Demo.with_skipUserProfile (SkipValue (VBool true)) (demo_raising boom))
                 req Demo.no_options) = Some boom).
Proof.
  split.
  - refine (raising_verify Demo.E (demo_raising (VError "boom"))
              (Demo.callback_visit (Some "iPlanetDirectoryPro=tok123")) Demo.no_options
              "iPlanetDirectoryPro=tok123" eq_refl eq_refl eq_refl eq_refl eq_refl eq_refl
              false Demo.bob_profile (VError "boom") eq_refl _ eq_refl eq_refl).
    by exists VNull, Demo.bob_attributes.
  - exact (raising_verify Demo.E
             (Demo.with_skipUserProfile (SkipValue (VBool true)) (demo_raising (VError "boom")))
             (Demo.callback_visit (Some "iPlanetDirectoryPro=tok123")) Demo.no_options
             "iPlanetDirectoryPro=tok123" eq_refl eq_refl eq_refl eq_refl eq_refl eq_refl
             true VUndefined (VError "boom") eq_refl eq_refl eq_refl).
Defined.

Lemma falsy_raise_repeats_verify_witness :
  let req := Demo.callback_visit (Some "iPlanetDirectoryPro=tok123") in
  verify_calls (trace_of (authenticate Demo.E (demo_raising VNull) req Demo.no_options))
  = [(req, VStr "tok123", Demo.bob_profile); (req, VStr "tok123", VUndefined)].
Proof.
  exact (falsy_raise_repeats_verify Demo.E (demo_raising VNull)
           (Demo.callback_visit (Some "iPlanetDirectoryPro=tok123")) Demo.no_options
           "iPlanetDirectoryPro=tok123" eq_refl eq_refl eq_refl eq_refl eq_refl eq_refl
           Demo.bob_profile VNull VNull Demo.bob_attributes
           eq_refl eq_refl eq_refl eq_refl eq_refl eq_refl).
Defined.

(** ** When the mapping fails *)

(** X19. The mapping of attributes raises exactly when the attributes are
    [undefined] or [null], and then a [TypeError]; on anything else it
    returns a profile, and on a value that is not an object (a string, a
    number, a boolean) that profile has all six fields [undefined]. *)
Theorem build_profile_failure data :
  (is_Some (thrown (build_profile data)) ↔ data = VUndefined ∨ data = VNull)
  ∧ (∀ e, thrown (build_profile data) = Some e → e = VNativeError TypeError)
  ∧ ((∀ props, data ≠ VObj props) → data ≠ VUndefined → data ≠ VNull →
     build_profile data =
       mret (VObj [ ("id", VUndefined); ("username", VUndefined);
                    ("displayName", VUndefined);
                    ("name", VObj [("familyName", VUndefined); ("givenName", VUndefined)]);
                    ("email", VUndefined); ("_raw", data) ])).
Proof.
  split_and!.
  - split.
    + intros [e He]. unfold thrown in He.
      destruct (build_profile data) as [t [e'|p]] eqn:Hb; [|done].
      by destruct (build_profile_raises _ _ _ Hb).
    + by intros [-> | ->]; eexists.
  - intros e. unfold thrown.
    destruct (build_profile data) as [t [e'|p]] eqn:Hb; [|done].
    intros [= <-]. by destruct (build_profile_raises _ _ _ Hb) as (_ & _ & ->).
  - intros Hobj Hu Hn. destruct data; try done. by destruct (Hobj props).
Qed.

Lemma build_profile_failure_witness :
  build_profile (VStr "<html>Service Unavailable</html>") =
    mret (VObj [ ("id", VUndefined); ("username", VUndefined);
                 ("displayName", VUndefined);
                 ("name", VObj [("familyName", VUndefined); ("givenName", VUndefined)]);
                 ("email", VUndefined);
                 ("_raw", VStr "<html>Service Unavailable</html>") ]).
Proof.
  apply (build_profile_failure (VStr "<html>Service Unavailable</html>")); done.
Defined.

(** ** The example application under the strategy *)

(** X20. The strategy calls verify with [(req, token, profile, continuation)]
    (line 124); the verify function of the example takes
    [(token, profile, done)]. Its [done] is therefore the profile, which is
    no function: the deferred call raises a [TypeError] and the strategy's
    continuation is never called, whatever profile the strategy hands over.
    Called with three arguments, the same function would hand the profile to
    the continuation. *)
Theorem example_verify_never_continues req token profile :
  profile = VUndefined ∨ (∃ data, build_profile data = mret profile) →
  example_verify [ArgRequest req; ArgValue token; ArgValue profile; ArgContinuation]
  = RaisesTypeError
  ∧ example_verify [ArgValue token; ArgValue profile; ArgContinuation]
    = Continues VNull (ArgValue profile).
Proof.
  intros [-> | [data Hbuild]]; [done|]. split; [|done].
  unfold build_profile, get_prop in Hbuild.
  destruct data; rewrite ?bind_ret in Hbuild; try discriminate;
    by injection Hbuild as <-.
Qed.

Lemma example_verify_never_continues_witness :
  example_verify [ArgRequest (Demo.callback_visit (Some "iPlanetDirectoryPro=tok123"));
                  ArgValue (VStr "tok123"); ArgValue Demo.bob_profile; ArgContinuation]
  = RaisesTypeError.
Proof.
  apply (example_verify_never_continues
           (Demo.callback_visit (Some "iPlanetDirectoryPro=tok123")) (VStr "tok123")
           Demo.bob_profile).
  right. by exists Demo.bob_attributes.
Defined.
